(** * Real-time risk assessment: the analytics service

    A shallow embedding of the scoring pipeline of [analytics-service]:
    the volatility engine ([app/services/volatility_calculator.py]), the
    risk scorer ([app/services/risk_analyzer.py]) and the stream consumer
    ([app/services/redis_consumer.py]).

    Conventions of the embedding.
    - Python floats are read as real numbers ([R]): sums, products, [min],
      [max] and square roots are the exact ones.  A float division raises
      [ZeroDivisionError] on a zero divisor, as Python's does.
    - A naive [datetime] is the number of microseconds since 1970-01-01
      00:00 of the local calendar; [timedelta(minutes=n)] is [n * 60e6].
      Subtracting the configured volatility window or a literal window of
      the code from a clock reading is taken to stay within the years
      1..9999, as it does for every clock a running service reads; the
      lookback of [get_volatility_percentile], which its caller chooses,
      is checked as Python checks it ([OverflowError]).
    - Code that can raise returns a [result]; code that mutates an object
      returns the new object next to its result, also when it raises.
    - One scoring pass reads the clock many times within a few
      microseconds; the embedding hands every such read the same instant.
      The three reads of one tick of the price feed are kept apart.
    - The exceptions of the embedding are subclasses of [Exception];
      cancellation of a task ([asyncio.CancelledError], which no
      [except Exception] catches) is outside it. *)

From Stdlib Require Import Reals Lra ZArith List.
From stdpp Require Import gmap strings.

#[local] Arguments IZR _ : simpl never.

(** ** Python values: exceptions, results, ranges, time *)

Inductive exn : Type :=
| ZeroDivisionError
| IndexError
| KeyError (key : string)
| ValueError
| ValidationError
| JSONDecodeError
| ConnectionError
| OverflowError.

Inductive result (A : Type) : Type :=
| Ok (a : A)
| Raise (e : exn).
Arguments Ok {A} a.
Arguments Raise {A} e.

#[export] Instance result_ret : MRet result := fun A a => Ok a.
#[export] Instance result_bind : MBind result :=
  fun A B f m => match m with Ok a => f a | Raise e => Raise e end.

#[export] Instance Rgt_decision (x y : R) : Decision (x > y)%R := Rgt_dec x y.
#[export] Instance Rge_decision (x y : R) : Decision (x >= y)%R := Rge_dec x y.
#[export] Instance Rlt_decision (x y : R) : Decision (x < y)%R := Rlt_dec x y.
#[export] Instance Req_decision : EqDecision R := Req_dec_T.

(** [a / b] on Python floats. *)
Definition truediv (a b : R) : result R :=
  if decide (b = 0%R) then Raise ZeroDivisionError else Ok (a / b)%R.

Fixpoint range_from (n : nat) (start step : Z) : list Z :=
  match n with
  | O => []
  | S n' => start :: range_from n' (start + step) step
  end.

(** [range(start, stop, step)] for a positive [step]. *)
Definition py_range (start stop step : Z) : list Z :=
  range_from (Z.to_nat ((stop - start + step - 1) / step)) start step.

(** [l[-n:]] for [n > 0]. *)
Definition last_n {A} (n : nat) (l : list A) : list A :=
  skipn (length l - n) l.

Definition datetime : Type := Z.

Definition timedelta_minutes (minutes : Z) : Z := minutes * 60000000.

(** [datetime.min] and [datetime.max]: 0001-01-01 00:00:00 and
    9999-12-31 23:59:59.999999. *)
Definition datetime_min : datetime := (-62135596800000000)%Z.
Definition datetime_max : datetime := 253402300799999999%Z.

(** [timedelta(minutes=n)] for a caller's [n]: the days of a [timedelta]
    have a magnitude of at most 999999999. *)
Definition timedelta (minutes : Z) : result Z :=
  let delta := timedelta_minutes minutes in
  let days := (delta / 86400000000)%Z in
  if ((-999999999 <=? days) && (days <=? 999999999))%Z then Ok delta
  else Raise OverflowError.

(** [d - delta] on a [datetime]: the result lies in the years 1..9999. *)
Definition datetime_sub (d : datetime) (delta : Z) : result datetime :=
  let r := (d - delta)%Z in
  if ((datetime_min <=? r) && (r <=? datetime_max))%Z then Ok r
  else Raise OverflowError.

(** [d - timedelta(minutes=n)]. *)
Definition minutes_before (d : datetime) (minutes : Z) : result datetime :=
  delta ← timedelta minutes; datetime_sub d delta.

(** [d.hour]. *)
Definition hour (d : datetime) : Z := (d / 3600000000) mod 24.

(** [d.weekday()]: Monday is 0; 1970-01-01 was a Thursday. *)
Definition weekday (d : datetime) : Z := (d / 86400000000 + 3) mod 7.

(** ** numpy *)

Definition Rsum (l : list R) : R := foldr Rplus 0%R l.

Definition np_mean (l : list R) : R := (Rsum l / INR (length l))%R.

(** [np.std(l)] with numpy's defaults ([ddof=0]):
    [sqrt(mean(abs(l - l.mean())**2))]. *)
Definition np_std (l : list R) : R :=
  sqrt (np_mean (map (fun x => (Rabs (x - np_mean l) ^ 2)%R) l)).

Definition np_sqrt (x : R) : R := sqrt x.

(** The sample standard deviation of statistics: the squared deviations
    from the mean are divided by [n - 1] (Bessel's correction). *)
Definition sample_std (l : list R) : R :=
  sqrt (Rsum (map (fun x => ((x - np_mean l) ^ 2)%R) l) / (INR (length l) - 1))%R.

(** ** Configuration ([app/config.py]) *)

Module Settings.
Record t : Type := mk {
  volatility_window_minutes : Z;
  price_update_interval_seconds : Z;
  high_volatility_threshold : R;
  extreme_volatility_threshold : R;
  btc_starting_price : R;
  btc_volatility_factor : R
}.
End Settings.

(** The defaults of [Settings] when the environment sets nothing. *)
Definition default_settings : Settings.t :=
  Settings.mk 1 1 0.05%R 0.10%R 45000%R 0.02%R.

(** ** Volatility engine ([app/services/volatility_calculator.py]) *)

Module PricePoint.
Record t : Type := mk {
  price : R;
  timestamp : datetime;
  change : R
}.
End PricePoint.

Module VolatilityCalculator.
Record t : Type := mk {
  settings : Settings.t;
  price_history : list PricePoint.t;   (* deque(maxlen=1000) *)
  current_price : R;
  last_update : datetime;
  running : bool
}.

Definition set_running (x : bool) (self : t) : t :=
  mk (settings self) (price_history self) (current_price self)
     (last_update self) x.
End VolatilityCalculator.

Definition price_history_maxlen : nat := 1000.

(** [VolatilityCalculator.__init__]. *)
Definition VolatilityCalculator_init (s : Settings.t) (now : datetime)
  : VolatilityCalculator.t :=
  VolatilityCalculator.mk s [] (Settings.btc_starting_price s) now false.

(** [deque.append] on a deque with [maxlen]: the oldest entry leaves when
    the deque is full. *)
Definition deque_append {A} (maxlen : nat) (d : list A) (x : A) : list A :=
  let d' := d ++ [x] in skipn (length d' - maxlen) d'.

(** [_update_price]; [hour_clock], [point_clock] and [update_clock] are
    its three reads of [datetime.now()], in this order: for the hour of
    the day, for the timestamp of the new point and for [last_update];
    [normal] is the draw of [np.random.normal(0, 1)] and [uniform] the draw
    of [random.random()]. *)
Definition _update_price (self : VolatilityCalculator.t)
    (hour_clock point_clock update_clock : datetime)
    (normal uniform : R) : VolatilityCalculator.t :=
  let dt := (1 / 86400)%R in
  let drift := 0.0001%R in
  let volatility := Settings.btc_volatility_factor (VolatilityCalculator.settings self) in
  let current_hour := hour hour_clock in
  let volatility :=
    if bool_decide (2 <= current_hour <= 6)%Z then (volatility * 1.5)%R
    else if bool_decide (14 <= current_hour <= 18)%Z then (volatility * 1.2)%R
    else volatility in
  let random_shock := normal in
  let random_shock :=
    if decide (uniform < 0.001)%R then (random_shock * 5)%R else random_shock in
  let price_change :=
    (VolatilityCalculator.current_price self
     * (drift * dt + volatility * sqrt dt * random_shock))%R in
  let new_price :=
    Rmax (VolatilityCalculator.current_price self + price_change) 1000 in
  VolatilityCalculator.mk
    (VolatilityCalculator.settings self)
    (deque_append price_history_maxlen (VolatilityCalculator.price_history self)
       (PricePoint.mk new_price point_clock price_change))
    new_price update_clock (VolatilityCalculator.running self).

(** The returns loop of [get_current_volatility] and
    [get_volatility_percentile]:
    [(p[i].price - p[i-1].price) / p[i-1].price] for [i] from 1. *)
Fixpoint simple_returns (prices : list PricePoint.t) : result (list R) :=
  match prices with
  | prev :: ((cur :: _) as rest) =>
      ret ← truediv (PricePoint.price cur - PricePoint.price prev)
                    (PricePoint.price prev);
      returns ← simple_returns rest;
      Ok (ret :: returns)
  | _ => Ok []
  end.

Definition minutes_per_year : R := (365 * 24 * 60)%R.

Definition get_current_volatility (self : VolatilityCalculator.t)
    (now : datetime) : result R :=
  let history := VolatilityCalculator.price_history self in
  if (length history <? 10)%nat then Ok 0%R
  else
    let cutoff_time :=
      (now - timedelta_minutes
               (Settings.volatility_window_minutes
                  (VolatilityCalculator.settings self)))%Z in
    let recent_prices :=
      List.filter (fun p => (cutoff_time <? PricePoint.timestamp p)%Z) history in
    if (length recent_prices <? 2)%nat then Ok 0%R
    else
      returns ← simple_returns recent_prices;
      match returns with
      | [] => Ok 0%R
      | _ => Ok (np_std returns * np_sqrt minutes_per_year)%R
      end.

(** The body of the sampling loop of [get_volatility_percentile], for the
    block starting at index [i]. *)
Definition sample_block (history : list PricePoint.t) (cutoff_time : datetime)
    (historical_vols : list R) (i : Z) : result (list R) :=
  match history !! Z.to_nat i with
  | None => Raise IndexError
  | Some p =>
      let sample_time := PricePoint.timestamp p in
      if (sample_time <? cutoff_time)%Z then Ok historical_vols
      else
        let sample_prices := firstn 10 (skipn (Z.to_nat i) history) in
        if (length sample_prices <? 2)%nat then Ok historical_vols
        else
          returns ← simple_returns sample_prices;
          match returns with
          | [] => Ok historical_vols
          | _ => Ok (historical_vols
                       ++ [(np_std returns * np_sqrt minutes_per_year)%R])
          end
  end.

Fixpoint sample_blocks (history : list PricePoint.t) (cutoff_time : datetime)
    (historical_vols : list R) (indices : list Z) : result (list R) :=
  match indices with
  | [] => Ok historical_vols
  | i :: indices' =>
      vols ← sample_block history cutoff_time historical_vols i;
      sample_blocks history cutoff_time vols indices'
  end.

Definition get_volatility_percentile (self : VolatilityCalculator.t)
    (now : datetime) (lookback_minutes : Z) : result R :=
  let history := VolatilityCalculator.price_history self in
  current_vol ← get_current_volatility self now;
  cutoff_time ← minutes_before now lookback_minutes;
  historical_vols ←
    sample_blocks history cutoff_time []
      (py_range 0 (Z.of_nat (length history) - 10) 10);
  match historical_vols with
  | [] => Ok 50%R
  | _ =>
      Ok (INR (length (List.filter
                         (fun v => bool_decide (v < current_vol)%R)
                         historical_vols))
          / INR (length historical_vols) * 100)%R
  end.

(** [get_price_history]; the service calls it with the literal window 5,
    and the statements read it at the configured window. *)
Definition get_price_history (self : VolatilityCalculator.t) (now : datetime)
    (minutes : Z) : list PricePoint.t :=
  let cutoff_time := (now - timedelta_minutes minutes)%Z in
  List.filter (fun p => (cutoff_time <? PricePoint.timestamp p)%Z)
    (VolatilityCalculator.price_history self).

Definition calculate_slippage (self : VolatilityCalculator.t) (now : datetime)
    (order_size : R) (symbol : string) : result R :=
  volatility ← get_current_volatility self now;
  let base_slippage := 5%R in
  let size_impact := Rmin (order_size / 100000) 0.5 in
  let volatility_impact := Rmin (volatility * 1000) 20 in
  let current_hour := hour now in
  let time_impact :=
    if bool_decide (2 <= current_hour <= 6)%Z then 5%R else 0%R in
  let total_slippage :=
    (base_slippage + size_impact + volatility_impact + time_impact)%R in
  Ok total_slippage.

(** The states the engine goes through: the constructor's, then what
    [start_btc_feed] and [stop_feed] do to the [running] flag and one
    [_update_price] per tick of the feed. *)
Inductive engine_state : VolatilityCalculator.t -> Prop :=
| engine_init (s : Settings.t) (now : datetime) :
    engine_state (VolatilityCalculator_init s now)
| engine_running (self : VolatilityCalculator.t) (flag : bool) :
    engine_state self ->
    engine_state (VolatilityCalculator.set_running flag self)
| engine_tick (self : VolatilityCalculator.t)
    (hour_clock point_clock update_clock : datetime) (normal uniform : R) :
    engine_state self ->
    engine_state
      (_update_price self hour_clock point_clock update_clock normal uniform).

(** ** Models ([app/models/analytics_models.py]) *)

Module Order.
Record t : Type := mk {
  orderId : string;
  userId : string;
  symbol : string;
  side : string;
  quantity : R;
  price : R;
  orderType : string;
  timestamp : datetime
}.
End Order.

Inductive Verdict : Type := ACCEPT | WARN | REJECT.

(** The reasons of an analysis.  The source formats each one into a
    string; a constructor keeps the template and the value it prints. *)
Inductive reason : Type :=
| ExtremeVolatility (current_vol : R)
| HighVolatility (current_vol : R)
| TopPercentile (vol_percentile : R)
| HighSlippage (slippage_bps : R)
| ModerateSlippage (slippage_bps : R)
| HighFrequency (orders : nat)
| LargeOrder (times_average : R)
| FirstTimeUser
| OutsideMarketHours
| WeekendTrading
| LargePriceMovement (relative_change : R)
| HighRiskScore (score : R)
| ModerateRiskScore (score : R)
| LowRiskScore (score : R).

(** [riskScore] is declared [Field(ge=0, le=100)].  Pydantic checks the
    bounds when the model is constructed (with 0 here); the later
    assignments to the field are not validated. *)
Module RiskAnalysis.
Record t : Type := mk {
  orderId : string;
  userId : string;
  symbol : string;
  riskScore : R;
  verdict : Verdict;
  volatility : R;
  slippage : R;
  reasons : list reason;
  processingTimeMs : Z;
  timestamp : datetime
}.

Definition set_riskScore (x : R) (a : t) : t :=
  mk (orderId a) (userId a) (symbol a) x (verdict a) (volatility a)
     (slippage a) (reasons a) (processingTimeMs a) (timestamp a).
Definition set_verdict (x : Verdict) (a : t) : t :=
  mk (orderId a) (userId a) (symbol a) (riskScore a) x (volatility a)
     (slippage a) (reasons a) (processingTimeMs a) (timestamp a).
Definition set_volatility (x : R) (a : t) : t :=
  mk (orderId a) (userId a) (symbol a) (riskScore a) (verdict a) x
     (slippage a) (reasons a) (processingTimeMs a) (timestamp a).
Definition set_slippage (x : R) (a : t) : t :=
  mk (orderId a) (userId a) (symbol a) (riskScore a) (verdict a) (volatility a)
     x (reasons a) (processingTimeMs a) (timestamp a).
Definition set_reasons (x : list reason) (a : t) : t :=
  mk (orderId a) (userId a) (symbol a) (riskScore a) (verdict a) (volatility a)
     (slippage a) x (processingTimeMs a) (timestamp a).
Definition set_processingTimeMs (x : Z) (a : t) : t :=
  mk (orderId a) (userId a) (symbol a) (riskScore a) (verdict a) (volatility a)
     (slippage a) (reasons a) x (timestamp a).
End RiskAnalysis.

(** [analysis.riskScore += points; analysis.reasons.append(why)]. *)
Definition add_risk (points : R) (why : reason) (a : RiskAnalysis.t)
  : RiskAnalysis.t :=
  RiskAnalysis.set_reasons (RiskAnalysis.reasons a ++ [why])
    (RiskAnalysis.set_riskScore (RiskAnalysis.riskScore a + points)%R a).

(** ** Risk scorer ([app/services/risk_analyzer.py]) *)

(** The library functions the scorer calls on strings and on the elapsed
    time: [json.loads], the validating constructor [Order] of pydantic
    applied to the decoded payload as keyword arguments, [float] on a
    string, [datetime.fromisoformat], and
    [int(delta.total_seconds() * 1000)] for a [timedelta] of the given
    number of microseconds (a float division, a float product and a
    truncation). *)
Class Codec : Type := {
  json : Type;
  json_loads : string -> result json;
  Order_kwargs : json -> result Order.t;
  float : string -> result R;
  fromisoformat : string -> result datetime;
  elapsed_milliseconds : Z -> Z
}.

(** [d[key]] on a dict. *)
Definition getitem {V} (d : gmap string V) (key : string) : result V :=
  match d !! key with
  | Some v => Ok v
  | None => Raise (KeyError key)
  end.

Definition _parse_order_data `{Codec} (order_data : gmap string string)
  : result Order.t :=
  match order_data !! "orderData" with
  | Some payload =>
      order_json ← json_loads payload;
      Order_kwargs order_json
  | None =>
      orderId ← getitem order_data "orderId";
      userId ← getitem order_data "userId";
      symbol ← getitem order_data "symbol";
      side ← getitem order_data "side";
      quantity ← getitem order_data "quantity" ≫= float;
      price ← getitem order_data "price" ≫= float;
      orderType ← getitem order_data "orderType";
      timestamp ← getitem order_data "timestamp" ≫= fromisoformat;
      Ok (Order.mk orderId userId symbol side quantity price orderType timestamp)
  end.

Module RecentOrder.
Record t : Type := mk {
  orderId : string;
  timestamp : datetime;
  size : R;
  riskScore : R
}.
End RecentOrder.

Module UserData.
Record t : Type := mk {
  total_orders : Z;
  total_volume : R;
  recent_orders : list RecentOrder.t;
  risk_events : Z;
  last_activity : datetime
}.
End UserData.

Module RiskAnalyzer.
Record t : Type := mk {
  volatility_calculator : VolatilityCalculator.t;
  settings : Settings.t;
  user_analytics : gmap string UserData.t
}.

Definition set_user_analytics (x : gmap string UserData.t) (self : t) : t :=
  mk (volatility_calculator self) (settings self) x.
End RiskAnalyzer.

(** [RiskAnalyzer.__init__]. *)
Definition RiskAnalyzer_init (vc : VolatilityCalculator.t) (s : Settings.t)
  : RiskAnalyzer.t :=
  RiskAnalyzer.mk vc s ∅.

(** A method that mutates [self] and may raise: the new [self] comes back
    with the result, also when the result is an exception. *)
Definition io (S A : Type) : Type := S -> result A * S.

#[export] Instance io_ret {S} : MRet (io S) := fun A a s => (Ok a, s).
#[export] Instance io_bind {S} : MBind (io S) :=
  fun A B f m s =>
    match m s with
    | (Ok a, s') => f a s'
    | (Raise e, s') => (Raise e, s')
    end.

Definition lift {S A} (r : result A) : io S A := fun s => (r, s).
Definition get {S} : io S S := fun s => (Ok s, s).
Definition put {S} (s : S) : io S unit := fun _ => (Ok tt, s).

(** [try: body except Exception as e: handler(e)]; every exception of
    the embedding is an [Exception]. *)
Definition try_except {S A} (body : io S A) (handler : exn -> io S A) : io S A :=
  fun s =>
    match body s with
    | (Ok a, s') => (Ok a, s')
    | (Raise e, s') => handler e s'
    end.

Definition _analyze_volatility_risk (self : RiskAnalyzer.t) (now : datetime)
    (order : Order.t) (analysis : RiskAnalysis.t) : result RiskAnalysis.t :=
  let vc := RiskAnalyzer.volatility_calculator self in
  current_vol ← get_current_volatility vc now;
  let analysis := RiskAnalysis.set_volatility current_vol analysis in
  vol_percentile ← get_volatility_percentile vc now 60;
  let analysis :=
    if decide (current_vol
               > Settings.extreme_volatility_threshold (RiskAnalyzer.settings self))%R
    then add_risk 30 (ExtremeVolatility current_vol) analysis
    else if decide (current_vol
                    > Settings.high_volatility_threshold (RiskAnalyzer.settings self))%R
    then add_risk 15 (HighVolatility current_vol) analysis
    else analysis in
  let analysis :=
    if decide (vol_percentile > 90)%R
    then add_risk 10 (TopPercentile vol_percentile) analysis
    else analysis in
  Ok analysis.

Definition _analyze_slippage_risk (self : RiskAnalyzer.t) (now : datetime)
    (order : Order.t) (analysis : RiskAnalysis.t) : result RiskAnalysis.t :=
  let order_size := (Order.quantity order * Order.price order)%R in
  slippage_bps ←
    calculate_slippage (RiskAnalyzer.volatility_calculator self) now
      order_size (Order.symbol order);
  let analysis := RiskAnalysis.set_slippage (slippage_bps / 10000)%R analysis in
  let analysis :=
    if decide (slippage_bps > 25)%R
    then add_risk 20 (HighSlippage slippage_bps) analysis
    else if decide (slippage_bps > 15)%R
    then add_risk 10 (ModerateSlippage slippage_bps) analysis
    else analysis in
  Ok analysis.

(** The scoring part of [_analyze_user_behavior], on the profile read from
    [self.user_analytics]. *)
Definition score_user_behavior (user_data : UserData.t) (now : datetime)
    (order : Order.t) (analysis : RiskAnalysis.t) : result RiskAnalysis.t :=
  let recent_orders :=
    List.filter
      (fun o => (now - timedelta_minutes 5 <? RecentOrder.timestamp o)%Z)
      (UserData.recent_orders user_data) in
  let analysis :=
    if (10 <? length recent_orders)%nat
    then add_risk 25 (HighFrequency (length recent_orders)) analysis
    else analysis in
  let order_size := (Order.quantity order * Order.price order)%R in
  analysis ←
    (if (0 <? UserData.total_orders user_data)%Z then
       avg_order_size ←
         truediv (UserData.total_volume user_data)
                 (IZR (UserData.total_orders user_data));
       if decide (order_size > avg_order_size * 5)%R then
         times_average ← truediv order_size avg_order_size;
         Ok (add_risk 15 (LargeOrder times_average) analysis)
       else Ok analysis
     else Ok analysis);
  let analysis :=
    if (UserData.total_orders user_data =? 0)%Z
    then add_risk 5 FirstTimeUser analysis
    else analysis in
  Ok analysis.

Definition _analyze_user_behavior (now : datetime) (order : Order.t)
    (analysis : RiskAnalysis.t) : io RiskAnalyzer.t RiskAnalysis.t :=
  let user_id := Order.userId order in
  self ← get;
  (match RiskAnalyzer.user_analytics self !! user_id with
   | None =>
       put (RiskAnalyzer.set_user_analytics
              (<[user_id := UserData.mk 0 0%R [] 0 now]>
                 (RiskAnalyzer.user_analytics self)) self)
   | Some _ => mret tt
   end);;
  self ← get;
  user_data ← lift (getitem (RiskAnalyzer.user_analytics self) user_id);
  lift (score_user_behavior user_data now order analysis).

(** [max(l)] on a non-empty list. *)
Definition py_max (x : R) (l : list R) : R := fold_left Rmax l x.

Definition _analyze_market_conditions (self : RiskAnalyzer.t) (now : datetime)
    (order : Order.t) (analysis : RiskAnalysis.t) : result RiskAnalysis.t :=
  let current_hour := hour now in
  let analysis :=
    if ((current_hour <? 9) || (16 <? current_hour))%Z
    then add_risk 5 OutsideMarketHours analysis
    else analysis in
  let analysis :=
    if (5 <=? weekday now)%Z
    then add_risk 10 WeekendTrading analysis
    else analysis in
  let price_history :=
    get_price_history (RiskAnalyzer.volatility_calculator self) now 5 in
  if (1 <? length price_history)%nat then
    let recent_changes :=
      map (fun p => Rabs (PricePoint.change p)) (last_n 10 price_history) in
    match recent_changes with
    | [] => Ok analysis
    | c :: cs =>
        let max_recent_change := py_max c cs in
        if decide (max_recent_change > Order.price order * 0.005)%R then
          relative_change ← truediv max_recent_change (Order.price order);
          Ok (add_risk 10 (LargePriceMovement relative_change) analysis)
        else Ok analysis
    end
  else Ok analysis.

Definition _determine_verdict (analysis : RiskAnalysis.t) : RiskAnalysis.t :=
  let analysis :=
    if decide (RiskAnalysis.riskScore analysis >= 70)%R
    then RiskAnalysis.set_verdict REJECT analysis
    else if decide (RiskAnalysis.riskScore analysis >= 30)%R
    then RiskAnalysis.set_verdict WARN analysis
    else RiskAnalysis.set_verdict ACCEPT analysis in
  let summary :=
    match RiskAnalysis.verdict analysis with
    | REJECT => HighRiskScore (RiskAnalysis.riskScore analysis)
    | WARN => ModerateRiskScore (RiskAnalysis.riskScore analysis)
    | ACCEPT => LowRiskScore (RiskAnalysis.riskScore analysis)
    end in
  RiskAnalysis.set_reasons (summary :: RiskAnalysis.reasons analysis) analysis.

Definition recent_orders_maxlen : nat := 100.

Definition _update_user_analytics (now : datetime) (order : Order.t)
    (analysis : RiskAnalysis.t) : io RiskAnalyzer.t unit :=
  let user_id := Order.userId order in
  self ← get;
  user_data ← lift (getitem (RiskAnalyzer.user_analytics self) user_id);
  let order_size := (Order.quantity order * Order.price order)%R in
  let recent_orders :=
    UserData.recent_orders user_data
      ++ [RecentOrder.mk (Order.orderId order) (Order.timestamp order)
            order_size (RiskAnalysis.riskScore analysis)] in
  let recent_orders :=
    if (recent_orders_maxlen <? length recent_orders)%nat
    then last_n recent_orders_maxlen recent_orders
    else recent_orders in
  let risk_events :=
    match RiskAnalysis.verdict analysis with
    | REJECT | WARN => (UserData.risk_events user_data + 1)%Z
    | ACCEPT => UserData.risk_events user_data
    end in
  put (RiskAnalyzer.set_user_analytics
         (<[user_id :=
              UserData.mk (UserData.total_orders user_data + 1)
                (UserData.total_volume user_data + order_size)%R
                recent_orders risk_events now]>
            (RiskAnalyzer.user_analytics self)) self).

(** [analyze_order]; [start_time] is the clock when the call begins and
    [now] the clock during the pass. *)
Definition analyze_order `{Codec} (start_time now : datetime)
    (order_data : gmap string string) : io RiskAnalyzer.t RiskAnalysis.t :=
  order ← lift (_parse_order_data order_data);
  let analysis :=
    RiskAnalysis.mk (Order.orderId order) (Order.userId order)
      (Order.symbol order) 0%R ACCEPT 0%R 0%R [] 0 now in
  self ← get;
  analysis ← lift (_analyze_volatility_risk self now order analysis);
  analysis ← lift (_analyze_slippage_risk self now order analysis);
  analysis ← _analyze_user_behavior now order analysis;
  self ← get;
  analysis ← lift (_analyze_market_conditions self now order analysis);
  let analysis := _determine_verdict analysis in
  let processing_time := elapsed_milliseconds (now - start_time)%Z in
  let analysis := RiskAnalysis.set_processingTimeMs processing_time analysis in
  _update_user_analytics now order analysis;;
  mret analysis.

(** ** Stream consumer ([app/services/redis_consumer.py]) *)

(** The value of the hash stored under [analysis:<orderId>]. *)
Module AnalysisData.
Record t : Type := mk {
  orderId : string;
  userId : string;
  symbol : string;
  verdict : Verdict;
  riskScore : R;
  volatility : R;
  slippage : R;
  reasons : list reason;
  processingTimeMs : Z;
  timestamp : datetime;
  messageId : string
}.
End AnalysisData.

(** The commands the consumer sends while it processes a message. *)
Inductive redis_command : Type :=
| HSET (key : string)
| EXPIRE (key : string)
| XACK (stream group id : string).

(** The Redis server as the consumer sees it: the stored hashes, their
    expiries in seconds, the entries delivered to the consumer group and
    not yet acknowledged, and the commands that fail with a transport
    error when they are sent. *)
Module Redis.
Record t : Type := mk {
  hashes : gmap string AnalysisData.t;
  expires : gmap string Z;
  pending : gset string;
  fails : redis_command -> bool
}.
End Redis.

Definition hset (key : string) (mapping : AnalysisData.t) : io Redis.t unit :=
  fun r =>
    if Redis.fails r (HSET key) then (Raise ConnectionError, r)
    else (Ok tt, Redis.mk (<[key := mapping]> (Redis.hashes r))
                   (Redis.expires r) (Redis.pending r) (Redis.fails r)).

Definition expire (key : string) (seconds : Z) : io Redis.t unit :=
  fun r =>
    if Redis.fails r (EXPIRE key) then (Raise ConnectionError, r)
    else (Ok tt, Redis.mk (Redis.hashes r)
                   (<[key := seconds]> (Redis.expires r))
                   (Redis.pending r) (Redis.fails r)).

Definition xack (stream group id : string) : io Redis.t unit :=
  fun r =>
    if Redis.fails r (XACK stream group id) then (Raise ConnectionError, r)
    else (Ok tt, Redis.mk (Redis.hashes r) (Redis.expires r)
                   (Redis.pending r ∖ {[id]}) (Redis.fails r)).

Module RedisConsumer.
Record t : Type := mk {
  risk_analyzer : RiskAnalyzer.t;
  redis_client : Redis.t;
  running : bool
}.
End RedisConsumer.

Definition consumer_group : string := "analytics-group".
Definition consumer_name : string := "analytics-consumer-1".
Definition stream_name : string := "orders:stream".

(** A call on [self.risk_analyzer]. *)
Definition on_risk_analyzer {A} (m : io RiskAnalyzer.t A)
  : io RedisConsumer.t A :=
  fun self =>
    let '(r, ra) := m (RedisConsumer.risk_analyzer self) in
    (r, RedisConsumer.mk ra (RedisConsumer.redis_client self)
          (RedisConsumer.running self)).

(** A call on [self.redis_client]. *)
Definition on_redis_client {A} (m : io Redis.t A) : io RedisConsumer.t A :=
  fun self =>
    let '(r, rc) := m (RedisConsumer.redis_client self) in
    (r, RedisConsumer.mk (RedisConsumer.risk_analyzer self) rc
          (RedisConsumer.running self)).

Definition _store_analysis_result (msg_id : string) (analysis : RiskAnalysis.t)
  : io RedisConsumer.t unit :=
  try_except
    (let analysis_key := "analysis:" +:+ RiskAnalysis.orderId analysis in
     let analysis_data :=
       AnalysisData.mk (RiskAnalysis.orderId analysis)
         (RiskAnalysis.userId analysis) (RiskAnalysis.symbol analysis)
         (RiskAnalysis.verdict analysis) (RiskAnalysis.riskScore analysis)
         (RiskAnalysis.volatility analysis) (RiskAnalysis.slippage analysis)
         (RiskAnalysis.reasons analysis)
         (RiskAnalysis.processingTimeMs analysis)
         (RiskAnalysis.timestamp analysis) msg_id in
     on_redis_client (hset analysis_key analysis_data);;
     on_redis_client (expire analysis_key 86400))
    (fun e => mret tt).

Definition _process_single_message `{Codec} (start_time now : datetime)
    (msg_id : string) (fields : gmap string string) : io RedisConsumer.t unit :=
  try_except
    (risk_analysis ← on_risk_analyzer (analyze_order start_time now fields);
     _store_analysis_result msg_id risk_analysis)
    (fun e => lift (Raise e)).

(** The inner loop of [_process_messages]: the entries of one stream. *)
Fixpoint process_entries `{Codec} (start_time now : datetime)
    (msgs : list (string * gmap string string)) : io RedisConsumer.t unit :=
  match msgs with
  | [] => mret tt
  | (msg_id, fields) :: msgs' =>
      try_except
        (_process_single_message start_time now msg_id fields;;
         on_redis_client (xack stream_name consumer_group msg_id))
        (fun e => mret tt);;
      process_entries start_time now msgs'
  end.

Fixpoint _process_messages `{Codec} (start_time now : datetime)
    (messages : list (string * list (string * gmap string string)))
  : io RedisConsumer.t unit :=
  match messages with
  | [] => mret tt
  | (stream, msgs) :: messages' =>
      process_entries start_time now msgs;;
      _process_messages start_time now messages'
  end.

(** * Notions used in the statements *)

(** "Simple returns between consecutive points": the returns loop when no
    division fails. *)
Fixpoint consecutive_returns (prices : list PricePoint.t) : list R :=
  match prices with
  | prev :: ((cur :: _) as rest) =>
      ((PricePoint.price cur - PricePoint.price prev) / PricePoint.price prev)%R
        :: consecutive_returns rest
  | _ => []
  end.

Definition volatility_window (self : VolatilityCalculator.t) : Z :=
  Settings.volatility_window_minutes (VolatilityCalculator.settings self).

(** The slippage estimate as the design text words it: the size impact is
    capped at 50 bps. *)
Definition slippage_as_specified (order_size volatility : R) (current_hour : Z)
  : R :=
  (5 + Rmin (order_size / 100000) 50 + Rmin (volatility * 1000) 20
   + (if bool_decide (2 <= current_hour <= 6)%Z then 5 else 0))%R.

Definition order_notional (order : Order.t) : R :=
  (Order.quantity order * Order.price order)%R.

(** The points each stage of the scorer adds. *)
Definition volatility_points (s : Settings.t) (current_vol : R) : R :=
  if decide (current_vol > Settings.extreme_volatility_threshold s)%R then 30%R
  else if decide (current_vol > Settings.high_volatility_threshold s)%R then 15%R
  else 0%R.

Definition percentile_points (vol_percentile : R) : R :=
  if decide (vol_percentile > 90)%R then 10%R else 0%R.

Definition slippage_points (slippage_bps : R) : R :=
  if decide (slippage_bps > 25)%R then 20%R
  else if decide (slippage_bps > 15)%R then 10%R
  else 0%R.

(** The user's recorded orders of the trailing five minutes. *)
Definition trailing_orders (user_data : UserData.t) (now : datetime)
  : list RecentOrder.t :=
  List.filter (fun o => (now - timedelta_minutes 5 <? RecentOrder.timestamp o)%Z)
    (UserData.recent_orders user_data).

Definition average_notional (user_data : UserData.t) : R :=
  (UserData.total_volume user_data / IZR (UserData.total_orders user_data))%R.

(** The three conditions of the user-behaviour stage. *)
Definition high_frequency (user_data : UserData.t) (now : datetime) : Prop :=
  (10 < length (trailing_orders user_data now))%nat.

Definition large_order (user_data : UserData.t) (order : Order.t) : Prop :=
  (0 < UserData.total_orders user_data)%Z /\
  (order_notional order > average_notional user_data * 5)%R.

Definition first_order (user_data : UserData.t) : Prop :=
  UserData.total_orders user_data = 0%Z.

#[export] Instance high_frequency_dec user_data now
  : Decision (high_frequency user_data now) :=
  decide (10 < length (trailing_orders user_data now))%nat.

#[export] Instance large_order_dec user_data order
  : Decision (large_order user_data order) :=
  decide ((0 < UserData.total_orders user_data)%Z /\
          (order_notional order > average_notional user_data * 5)%R).

#[export] Instance first_order_dec user_data
  : Decision (first_order user_data) :=
  decide (UserData.total_orders user_data = 0%Z).

Definition user_points (user_data : UserData.t) (now : datetime)
    (order : Order.t) : R :=
  ((if decide (high_frequency user_data now) then 25 else 0)
   + (if decide (large_order user_data order) then 15 else 0)
   + (if decide (first_order user_data) then 5 else 0))%R.

(** The profile the user-behaviour stage works on: the stored one, or the
    zeroed one it stores for a user it has not seen. *)
Definition user_profile (self : RiskAnalyzer.t) (user_id : string)
    (now : datetime) : UserData.t :=
  default (UserData.mk 0 0%R [] 0 now)
    (RiskAnalyzer.user_analytics self !! user_id).

Definition with_profile (self : RiskAnalyzer.t) (user_id : string)
    (now : datetime) : RiskAnalyzer.t :=
  match RiskAnalyzer.user_analytics self !! user_id with
  | None =>
      RiskAnalyzer.set_user_analytics
        (<[user_id := UserData.mk 0 0%R [] 0 now]>
           (RiskAnalyzer.user_analytics self)) self
  | Some _ => self
  end.

Definition off_hours (now : datetime) : Prop :=
  (hour now < 9)%Z \/ (16 < hour now)%Z.

Definition weekend (now : datetime) : Prop := (5 <= weekday now)%Z.

(** [max(recent_changes)], when the market stage gets to compute it. *)
Definition max_recent_change (vc : VolatilityCalculator.t) (now : datetime)
  : option R :=
  let price_history := get_price_history vc now 5 in
  if (1 <? length price_history)%nat then
    match map (fun p => Rabs (PricePoint.change p)) (last_n 10 price_history) with
    | [] => None
    | c :: cs => Some (py_max c cs)
    end
  else None.

Definition exceeds_half_percent (order : Order.t) (change : option R) : Prop :=
  match change with
  | Some m => (m > Order.price order * 0.005)%R
  | None => False
  end.

Definition large_movement (vc : VolatilityCalculator.t) (now : datetime)
    (order : Order.t) : Prop :=
  exceeds_half_percent order (max_recent_change vc now).

#[export] Instance exceeds_half_percent_dec order change
  : Decision (exceeds_half_percent order change) :=
  match change with
  | Some m => decide (m > Order.price order * 0.005)%R
  | None => decide False
  end.

#[export] Instance off_hours_dec now : Decision (off_hours now) :=
  decide ((hour now < 9)%Z \/ (16 < hour now)%Z).

#[export] Instance weekend_dec now : Decision (weekend now) :=
  decide (5 <= weekday now)%Z.

#[export] Instance large_movement_dec vc now order
  : Decision (large_movement vc now order) :=
  exceeds_half_percent_dec order (max_recent_change vc now).

Definition market_points (vc : VolatilityCalculator.t) (now : datetime)
    (order : Order.t) : R :=
  ((if decide (off_hours now) then 5 else 0)
   + (if decide (weekend now) then 10 else 0)
   + (if decide (large_movement vc now order) then 10 else 0))%R.

(** The key a result is stored under. *)
Definition analysis_key (analysis : RiskAnalysis.t) : string :=
  "analysis:" +:+ RiskAnalysis.orderId analysis.

(** * Example data *)

(** ** A codec for the examples

    It decodes the empty JSON object, unsigned decimal numerals and
    timestamps to the second written [YYYY-MM-DDTHH:MM:SS], as the
    libraries do on these strings; the examples use no other string, and
    the codec raises on all of them.  The elapsed milliseconds are the
    whole milliseconds, as Python's are for the elapsed times of the
    examples. *)

Fixpoint decimal (s : string) (acc : Z) : option Z :=
  match s with
  | EmptyString => Some acc
  | String c s' =>
      let n := Z.of_nat (Ascii.nat_of_ascii c) in
      if bool_decide (48 <= n <= 57)%Z then decimal s' (10 * acc + (n - 48))%Z
      else None
  end.

Definition numeral (s : string) : result Z :=
  match s with
  | EmptyString => Raise ValueError
  | _ => match decimal s 0 with Some z => Ok z | None => Raise ValueError end
  end.

(** Days from 1970-01-01 to a date of the Gregorian calendar. *)
Definition days_from_civil (y m d : Z) : Z :=
  let y := (if m <=? 2 then y - 1 else y)%Z in
  let era := (y / 400)%Z in
  let yoe := (y - era * 400)%Z in
  let doy := ((153 * (if 2 <? m then m - 3 else m + 9) + 2) / 5 + d - 1)%Z in
  let doe := (yoe * 365 + yoe / 4 - yoe / 100 + doy)%Z in
  (era * 146097 + doe - 719468)%Z.

(** The days of month [m] of year [y]. *)
Definition days_in_month (y m : Z) : Z :=
  if (m =? 2)%Z then
    if ((y mod 4 =? 0) && (negb (y mod 100 =? 0) || (y mod 400 =? 0)))%Z
    then 29%Z else 28%Z
  else if ((m =? 4) || (m =? 6) || (m =? 9) || (m =? 11))%Z then 30%Z
  else 31%Z.

(** [datetime.fromisoformat] on [YYYY-MM-DDTHH:MM:SS]. *)
Definition example_fromisoformat (s : string) : result datetime :=
  if negb (String.length s =? 19)%nat then Raise ValueError
  else
    y ← numeral (String.substring 0 4 s);
    m ← numeral (String.substring 5 2 s);
    d ← numeral (String.substring 8 2 s);
    hh ← numeral (String.substring 11 2 s);
    mm ← numeral (String.substring 14 2 s);
    ss ← numeral (String.substring 17 2 s);
    if bool_decide (String.substring 4 1 s = "-" /\ String.substring 7 1 s = "-"
                    /\ String.substring 10 1 s = "T"
                    /\ String.substring 13 1 s = ":"
                    /\ String.substring 16 1 s = ":"
                    /\ 1 <= y /\ 1 <= m <= 12 /\ 1 <= d <= days_in_month y m
                    /\ hh <= 23 /\ mm <= 59 /\ ss <= 59)%Z
    then Ok ((((days_from_civil y m d * 24 + hh) * 60 + mm) * 60 + ss) * 1000000)%Z
    else Raise ValueError.

(** [float] on an unsigned decimal numeral. *)
Definition example_float (s : string) : result R :=
  z ← numeral s; Ok (IZR z).

Definition as_validation_error {A} (r : result A) : result A :=
  match r with
  | Ok a => Ok a
  | Raise _ => Raise ValidationError
  end.

(** The keyword arguments of [Order] are a flat object of strings here;
    the constructor coerces them field by field. *)
Definition example_codec : Codec := {|
  json := gmap string string;
  json_loads s := if String.eqb s "{}" then Ok ∅ else Raise JSONDecodeError;
  Order_kwargs kw :=
    as_validation_error
      (orderId ← getitem kw "orderId";
       userId ← getitem kw "userId";
       symbol ← getitem kw "symbol";
       side ← getitem kw "side";
       quantity ← getitem kw "quantity" ≫= example_float;
       price ← getitem kw "price" ≫= example_float;
       orderType ← getitem kw "orderType";
       timestamp ← getitem kw "timestamp" ≫= example_fromisoformat;
       Ok (Order.mk orderId userId symbol side quantity price orderType timestamp));
  float := example_float;
  fromisoformat := example_fromisoformat;
  elapsed_milliseconds us := (us `quot` 1000)%Z
|}.

(** ** Clock readings *)

(** 2024-06-05 12:00:00, a Wednesday. *)
Definition wednesday_noon : datetime := 1717588800000000%Z.

(** 2024-06-01 20:00:00, a Saturday. *)
Definition saturday_evening : datetime := 1717272000000000%Z.

(** ** Engines *)

(** The engine before its first tick. *)
Definition cold_engine : VolatilityCalculator.t :=
  VolatilityCalculator_init default_settings wednesday_noon.

(** Ten ticks 25 seconds apart, the last one at [now]; the price doubles
    on the ninth tick and falls back on the tenth. *)
Definition swing_history (now : datetime) : list PricePoint.t :=
  map (fun k => PricePoint.mk 1000 (now - k * 25000000)%Z 0)
    [9; 8; 7; 6; 5; 4; 3; 2]%Z
  ++ [PricePoint.mk 2000 (now - 25000000)%Z 1000;
      PricePoint.mk 1000 now (-1000)].

Definition swing_engine (now : datetime) : VolatilityCalculator.t :=
  VolatilityCalculator.mk default_settings (swing_history now) 1000 now true.

Definition swing_volatility_value : R := (0.75 * sqrt (365 * 24 * 60))%R.

(** ** An order and a user *)

Definition example_fields : gmap string string :=
  {[ "orderId" := "order-1"; "userId" := "user-1"; "symbol" := "BTC-USD";
     "side" := "BUY"; "quantity" := "2"; "price" := "1000";
     "orderType" := "LIMIT"; "timestamp" := "2024-06-01T19:59:58" ]}.

Definition example_order : Order.t :=
  Order.mk "order-1" "user-1" "BTC-USD" "BUY" 2 1000 "LIMIT" 1717271998000000%Z.

(** The same message with a payload field next to the direct fields. *)
Definition wrapped_fields : gmap string string :=
  <["orderData" := "{}"]> example_fields.

(** Eleven recorded orders of one unit each, ten seconds apart, the last
    one ten seconds before [now]. *)
Definition busy_profile (now : datetime) : UserData.t :=
  UserData.mk 11 11%R
    (map (fun k => RecentOrder.mk "earlier" (now - k * 10000000)%Z 1%R 15%R)
       [11; 10; 9; 8; 7; 6; 5; 4; 3; 2; 1]%Z)
    0 (now - 10000000)%Z.

Definition busy_analyzer (now : datetime) : RiskAnalyzer.t :=
  RiskAnalyzer.mk (swing_engine now) default_settings
    {[ "user-1" := busy_profile now ]}.

(** ** A consumer whose store is unreachable *)

Definition example_msg_id : string := "1717272000000-0".

Definition hset_down (command : redis_command) : bool :=
  match command with
  | HSET _ => true
  | _ => false
  end.

Definition example_consumer : RedisConsumer.t :=
  RedisConsumer.mk (busy_analyzer saturday_evening)
    (Redis.mk ∅ ∅ {[ example_msg_id ]} hset_down) true.

(** * More of the service *)

(** ** Volatility engine: the read side and the feed loop *)

Definition get_current_price (self : VolatilityCalculator.t) : R :=
  VolatilityCalculator.current_price self.

Definition get_last_update (self : VolatilityCalculator.t) : datetime :=
  VolatilityCalculator.last_update self.

(** What one tick of the feed draws: the three clock reads of
    [_update_price] ([tick_time] is the one that stamps the new point),
    the normal draw and the uniform draw. *)
Record tick : Type := {
  tick_hour_clock : datetime;
  tick_time : datetime;
  tick_updated : datetime;
  tick_normal : R;
  tick_uniform : R
}.

Definition feed_tick (self : VolatilityCalculator.t) (t : tick)
  : VolatilityCalculator.t :=
  _update_price self (tick_hour_clock t) (tick_time t) (tick_updated t)
    (tick_normal t) (tick_uniform t).

(** The loop of [start_btc_feed] over the given ticks, each one a call of
    [_update_price]. *)
Definition run_feed (self : VolatilityCalculator.t) (ticks : list tick)
  : VolatilityCalculator.t :=
  fold_left feed_tick ticks self.

(** [price_history[-1]], when there is one. *)
Definition latest_point (self : VolatilityCalculator.t) : option PricePoint.t :=
  match VolatilityCalculator.price_history self with
  | [] => None
  | p :: history => Some (List.last history p)
  end.

(** ** Risk scorer: the tracker *)

Definition get_user_analytics (self : RiskAnalyzer.t) (user_id : string)
  : option UserData.t :=
  RiskAnalyzer.user_analytics self !! user_id.


(** The entry [_update_user_analytics] appends to [recent_orders]. *)
Definition order_summary (order : Order.t) (analysis : RiskAnalysis.t)
  : RecentOrder.t :=
  RecentOrder.mk (Order.orderId order) (Order.timestamp order)
    (order_notional order) (RiskAnalysis.riskScore analysis).

(** What [_update_user_analytics] makes of a profile. *)
Definition profile_updated (before after : UserData.t) (now : datetime)
    (order : Order.t) (analysis : RiskAnalysis.t) : Prop :=
  UserData.total_orders after = (UserData.total_orders before + 1)%Z /\
  UserData.total_volume after =
    (UserData.total_volume before + order_notional order)%R /\
  UserData.recent_orders after =
    last_n 100 (UserData.recent_orders before ++ [order_summary order analysis]) /\
  UserData.risk_events after =
    (UserData.risk_events before
     + match RiskAnalysis.verdict analysis with ACCEPT => 0 | _ => 1 end)%Z /\
  UserData.last_activity after = now.

(** The bounds every stored profile keeps. *)
Definition profile_bounds (p : UserData.t) : Prop :=
  (length (UserData.recent_orders p) <= 100)%nat /\
  (Z.of_nat (length (UserData.recent_orders p)) <= UserData.total_orders p)%Z /\
  (0 <= UserData.risk_events p <= UserData.total_orders p)%Z.

(** The analyzers a run of the service goes through: the constructor's,
    then ticks of the feed it reads and calls of [analyze_order], whatever
    they return. *)
Inductive tracker_state `{Codec} : RiskAnalyzer.t -> Prop :=
| tracker_init (vc : VolatilityCalculator.t) (s : Settings.t) :
    tracker_state (RiskAnalyzer_init vc s)
| tracker_feed (self : RiskAnalyzer.t) (vc : VolatilityCalculator.t) :
    tracker_state self ->
    tracker_state
      (RiskAnalyzer.mk vc (RiskAnalyzer.settings self)
         (RiskAnalyzer.user_analytics self))
| tracker_analyze (self : RiskAnalyzer.t) (start_time now : datetime)
    (order_data : gmap string string) :
    tracker_state self ->
    tracker_state (snd (analyze_order start_time now order_data self)).

(** The fields of an analysis that the stages after the slippage stage
    leave alone. *)
Definition recorded (a : RiskAnalysis.t) : string * string * string * R * R :=
  (RiskAnalysis.orderId a, RiskAnalysis.userId a, RiskAnalysis.symbol a,
   RiskAnalysis.volatility a, RiskAnalysis.slippage a).

(** ** Stream consumer: the read side *)

(** [get_analysis_result] on the hashes [_store_analysis_result] writes,
    whose fields convert back as they were written; [hgetall_fails] tells
    whether the read fails with a transport error.  Python's [None] is
    [None] here, and the mapping read back is [Some] of what is stored
    under the key (for a missing key, the empty mapping: [Some None]). *)
Definition get_analysis_result (redis_client : option Redis.t)
    (hgetall_fails : bool) (order_id : string)
  : option (option AnalysisData.t) :=
  match redis_client with
  | None => None
  | Some client =>
      if hgetall_fails then None
      else
        let analysis_key := "analysis:" +:+ order_id in
        Some (Redis.hashes client !! analysis_key)
  end.

(** The mapping [_store_analysis_result] builds for an analysis. *)
Definition analysis_data (msg_id : string) (analysis : RiskAnalysis.t)
  : AnalysisData.t :=
  AnalysisData.mk (RiskAnalysis.orderId analysis)
    (RiskAnalysis.userId analysis) (RiskAnalysis.symbol analysis)
    (RiskAnalysis.verdict analysis) (RiskAnalysis.riskScore analysis)
    (RiskAnalysis.volatility analysis) (RiskAnalysis.slippage analysis)
    (RiskAnalysis.reasons analysis)
    (RiskAnalysis.processingTimeMs analysis)
    (RiskAnalysis.timestamp analysis) msg_id.

(** The server after [_store_analysis_result]. *)
Definition store_outcome (client : Redis.t) (key : string)
    (data : AnalysisData.t) : Redis.t :=
  if Redis.fails client (HSET key) then client
  else
    let hashes := <[key := data]> (Redis.hashes client) in
    if Redis.fails client (EXPIRE key)
    then Redis.mk hashes (Redis.expires client) (Redis.pending client)
           (Redis.fails client)
    else Redis.mk hashes (<[key := 86400%Z]> (Redis.expires client))
           (Redis.pending client) (Redis.fails client).

(** The server after the acknowledgement is sent. *)
Definition ack_outcome (client : Redis.t) (msg_id : string) : Redis.t :=
  if Redis.fails client (XACK stream_name consumer_group msg_id) then client
  else Redis.mk (Redis.hashes client) (Redis.expires client)
         (Redis.pending client ∖ {[msg_id]}) (Redis.fails client).

(** What processing may do to the server: acknowledge and store. *)
Definition server_grows (before after : Redis.t) : Prop :=
  Redis.pending after ⊆ Redis.pending before /\
  (forall key, is_Some (Redis.hashes before !! key) ->
               is_Some (Redis.hashes after !! key)) /\
  Redis.fails after = Redis.fails before.

(** The ids of the entries of a batch. *)
Definition batch_ids
    (messages : list (string * list (string * gmap string string)))
  : list string :=
  concat (map (fun '(_, msgs) => map fst msgs) messages).

(** ** More example data *)

(** Ten ticks one second apart at an unchanged price of 1000. *)
Definition flat_engine (now : datetime) : VolatilityCalculator.t :=
  VolatilityCalculator.mk default_settings
    (map (fun k => PricePoint.mk 1000 (now - k * 1000000)%Z 0)
       [9; 8; 7; 6; 5; 4; 3; 2; 1; 0]%Z)
    1000 now true.

(** The analyzer before its first order. *)
Definition fresh_analyzer : RiskAnalyzer.t :=
  RiskAnalyzer_init cold_engine default_settings.

(** An analyzer before its first order, on an engine that has ticked. *)
Definition swing_analyzer (now : datetime) : RiskAnalyzer.t :=
  RiskAnalyzer_init (swing_engine now) default_settings.

(** The example order at a price of zero. *)
Definition zero_price_fields : gmap string string :=
  <["price" := "0"]> example_fields.

Definition zero_price_order : Order.t :=
  Order.mk "order-1" "user-1" "BTC-USD" "BUY" 2 0 "LIMIT" 1717271998000000%Z.

Definition no_failure (command : redis_command) : bool := false.

Definition xack_down (command : redis_command) : bool :=
  match command with
  | XACK _ _ _ => true
  | _ => false
  end.

Definition expire_down (command : redis_command) : bool :=
  match command with
  | EXPIRE _ => true
  | _ => false
  end.

(** A server with one entry pending and the given failures. *)
Definition example_server (fails : redis_command -> bool) : Redis.t :=
  Redis.mk ∅ ∅ {[ example_msg_id ]} fails.

(** * Results and the [io] monad *)

Lemma truediv_nonzero a b : b <> 0%R -> truediv a b = Ok (a / b)%R.
Proof.
  intros Hb. unfold truediv. rewrite decide_False by exact Hb. reflexivity.
Qed.

Lemma IZR_pos_neq_0 z : (0 < z)%Z -> IZR z <> 0%R.
Proof. intros Hz. apply not_0_IZR. lia. Qed.

Lemma io_bind_run {S A B} (m : io S A) (f : A -> io S B) s a s1 :
  m s = (Ok a, s1) -> (m ≫= f) s = f a s1.
Proof. intros H. unfold mbind, io_bind. rewrite H. reflexivity. Qed.

Lemma io_bind_Ok {S A B} (m : io S A) (f : A -> io S B) s b s' :
  (m ≫= f) s = (Ok b, s') ->
  exists a s1, m s = (Ok a, s1) /\ f a s1 = (Ok b, s').
Proof.
  unfold mbind, io_bind. destruct (m s) as [[a|e] s1]; [eauto|discriminate].
Qed.

Lemma io_bind_lift {S A B} (a : A) (f : A -> io S B) s :
  (lift (Ok a) ≫= f) s = f a s.
Proof. reflexivity. Qed.

Lemma io_bind_mret {S A B} (a : A) (f : A -> io S B) s :
  (mret a ≫= f) s = f a s.
Proof. reflexivity. Qed.

Lemma io_bind_get {S B} (f : S -> io S B) s : (get ≫= f) s = f s s.
Proof. reflexivity. Qed.

Lemma io_bind_put {S B} (f : unit -> io S B) s s1 :
  (put s1 ≫= f) s = f tt s1.
Proof. reflexivity. Qed.

(** * The volatility engine *)

Lemma simple_returns_step prev cur rest :
  simple_returns (prev :: cur :: rest) =
  truediv (PricePoint.price cur - PricePoint.price prev) (PricePoint.price prev)
    ≫= fun ret => simple_returns (cur :: rest)
    ≫= fun returns => Ok (ret :: returns).
Proof. reflexivity. Qed.

(** On non-zero prices the returns loop raises nothing. *)
Lemma simple_returns_nonzero prices :
  Forall (fun p => PricePoint.price p <> 0%R) prices ->
  simple_returns prices = Ok (consecutive_returns prices).
Proof.
  induction prices as [|prev [|cur rest] IH]; intros Hnz; try reflexivity.
  inversion Hnz as [|? ? Hprev Hrest]; subst.
  rewrite simple_returns_step, truediv_nonzero by exact Hprev.
  rewrite (IH Hrest). reflexivity.
Qed.

Lemma consecutive_returns_length prices :
  length (consecutive_returns prices) = (length prices - 1)%nat.
Proof.
  induction prices as [|prev [|cur rest] IH]; try reflexivity.
  change (consecutive_returns (prev :: cur :: rest)) with
    (((PricePoint.price cur - PricePoint.price prev) / PricePoint.price prev)%R
       :: consecutive_returns (cur :: rest)).
  cbn [length] in *. lia.
Qed.

Lemma np_std_nonneg l : (0 <= np_std l)%R.
Proof. apply sqrt_pos. Qed.

Lemma sqrt_minutes_per_year_pos : (0 < sqrt (365 * 24 * 60))%R.
Proof. apply sqrt_lt_R0. lra. Qed.

Lemma get_current_volatility_nonneg self now v :
  get_current_volatility self now = Ok v -> (0 <= v)%R.
Proof.
  unfold get_current_volatility. cbv zeta.
  destruct (_ <? 10)%nat; [intros [= <-]; lra|].
  destruct (_ <? 2)%nat; [intros [= <-]; lra|].
  destruct (simple_returns _) as [[|r rs]|e]; cbn; try discriminate.
  - intros [= <-]; lra.
  - intros [= <-]. apply Rmult_le_pos; [apply np_std_nonneg | apply sqrt_pos].
Qed.

Lemma filter_Forall {A} (P : A -> Prop) f (l : list A) :
  Forall P l -> Forall P (List.filter f l).
Proof.
  intros H. apply List.Forall_forall. intros x Hx.
  apply filter_In in Hx as [Hx _].
  eapply List.Forall_forall in H; eauto.
Qed.

Lemma get_current_volatility_returns self now :
  Forall (fun p => PricePoint.price p <> 0%R)
    (VolatilityCalculator.price_history self) ->
  exists v, get_current_volatility self now = Ok v.
Proof.
  intros Hnz. unfold get_current_volatility. cbv zeta.
  destruct (_ <? 10)%nat; [eauto|].
  destruct (_ <? 2)%nat; [eauto|].
  rewrite simple_returns_nonzero by (apply filter_Forall; exact Hnz).
  cbn. destruct (consecutive_returns _); eauto.
Qed.

(** ** The feed keeps its prices at 1000 or more *)

Lemma deque_append_Forall {A} (P : A -> Prop) maxlen d x :
  Forall P d -> P x -> Forall P (deque_append maxlen d x).
Proof.
  intros Hd Hx. unfold deque_append.
  apply Forall_drop, Forall_app. split; [exact Hd|].
  constructor; [exact Hx|constructor].
Qed.

Lemma deque_append_length {A} maxlen (d : list A) x :
  (length d <= maxlen)%nat -> (0 < maxlen)%nat ->
  (length (deque_append maxlen d x) <= maxlen)%nat.
Proof.
  intros. unfold deque_append. rewrite length_skipn, length_app. cbn. lia.
Qed.

Lemma engine_state_prices self :
  engine_state self ->
  Forall (fun p => (1000 <= PricePoint.price p)%R)
    (VolatilityCalculator.price_history self).
Proof.
  induction 1 as [s now|self flag _ IH|self c1 c2 c3 normal uniform _ IH]; cbn.
  - constructor.
  - exact IH.
  - apply deque_append_Forall; [exact IH|]. cbn. apply Rmax_r.
Qed.

Lemma engine_state_capacity self :
  engine_state self ->
  (length (VolatilityCalculator.price_history self) <= price_history_maxlen)%nat.
Proof.
  induction 1 as [s now|self flag _ IH|self c1 c2 c3 normal uniform _ IH]; cbn.
  - lia.
  - exact IH.
  - apply deque_append_length; [exact IH|]. unfold price_history_maxlen. lia.
Qed.

Lemma engine_state_volatility self now :
  engine_state self -> exists v, get_current_volatility self now = Ok v.
Proof.
  intros H. apply get_current_volatility_returns.
  eapply Forall_impl; [apply engine_state_prices; exact H|].
  cbn. intros p Hp. lra.
Qed.

(** ** Cold start *)

(** C7.  [get_current_volatility] returns exactly 0 when the retained
    window holds fewer than 10 points, and also when fewer than 2 of the
    retained points lie within the trailing volatility window, however
    many points are retained. *)
Theorem get_current_volatility_cold_start self now :
  (length (VolatilityCalculator.price_history self) < 10)%nat \/
  (length (get_price_history self now (volatility_window self)) < 2)%nat ->
  get_current_volatility self now = Ok 0%R.
Proof.
  intros H. unfold get_current_volatility. cbv zeta.
  destruct (Nat.ltb_spec (length (VolatilityCalculator.price_history self)) 10)
    as [Hlen|Hlen]; [reflexivity|].
  destruct H as [H|H]; [lia|].
  unfold get_price_history, volatility_window in H.
  apply Nat.ltb_lt in H. rewrite H. reflexivity.
Qed.

(** ** The estimate *)

Lemma get_current_volatility_warm self now :
  let qualifying := get_price_history self now (volatility_window self) in
  (10 <= length (VolatilityCalculator.price_history self))%nat ->
  (2 <= length qualifying)%nat ->
  Forall (fun p => PricePoint.price p <> 0%R) qualifying ->
  get_current_volatility self now =
    Ok (np_std (consecutive_returns qualifying) * sqrt (365 * 24 * 60))%R.
Proof.
  intros qualifying Hlen Hq Hnz. unfold get_current_volatility. cbv zeta.
  fold (volatility_window self).
  fold (get_price_history self now (volatility_window self)).
  fold qualifying.
  destruct (Nat.ltb_spec (length (VolatilityCalculator.price_history self)) 10);
    [lia|].
  destruct (Nat.ltb_spec (length qualifying) 2); [lia|].
  rewrite simple_returns_nonzero by exact Hnz. cbn.
  pose proof (consecutive_returns_length qualifying) as Hl.
  destruct (consecutive_returns qualifying); [cbn in Hl; lia|reflexivity].
Qed.

(** C8, amended.  With at least 10 retained points, at least 2 of them
    within the trailing window, and non-zero prices,
    [get_current_volatility] is the population standard deviation of the
    simple returns between consecutive qualifying points (numpy's default:
    the squared deviations are divided by the number of returns, not by
    one less), multiplied by [sqrt(365*24*60)]. *)
Theorem get_current_volatility_population_std self now :
  let qualifying := get_price_history self now (volatility_window self) in
  (10 <= length (VolatilityCalculator.price_history self))%nat ->
  (2 <= length qualifying)%nat ->
  Forall (fun p => PricePoint.price p <> 0%R) qualifying ->
  get_current_volatility self now =
    Ok (sqrt (np_mean (map (fun r =>
                (Rabs (r - np_mean (consecutive_returns qualifying)) ^ 2)%R)
              (consecutive_returns qualifying)))
        * sqrt (365 * 24 * 60))%R.
Proof. exact (get_current_volatility_warm self now). Qed.

(** * The slippage estimate *)

Lemma calculate_slippage_formula self now order_size symbol v :
  get_current_volatility self now = Ok v ->
  calculate_slippage self now order_size symbol =
    Ok (5 + Rmin (order_size / 100000) 0.5 + Rmin (v * 1000) 20
        + (if bool_decide (2 <= hour now <= 6)%Z then 5 else 0))%R.
Proof. intros Hv. unfold calculate_slippage. rewrite Hv. reflexivity. Qed.

Lemma calculate_slippage_cold self now order_size symbol :
  (length (VolatilityCalculator.price_history self) < 10)%nat ->
  calculate_slippage self now order_size symbol =
    Ok (5 + Rmin (order_size / 100000) 0.5 + Rmin (0 * 1000) 20
        + (if bool_decide (2 <= hour now <= 6)%Z then 5 else 0))%R.
Proof.
  intros Hlen. apply calculate_slippage_formula.
  unfold get_current_volatility. cbv zeta.
  apply Nat.ltb_lt in Hlen. rewrite Hlen. reflexivity.
Qed.


(** C9.  For every engine state and every non-negative order notional,
    [calculate_slippage] returns the base 5 plus a size impact of at most
    0.5, a volatility impact of at most 20 and a time-of-day surcharge of
    at most 5: a value between 5 and 30.5 basis points. *)
Theorem calculate_slippage_bounds self now order_size symbol :
  engine_state self ->
  (0 <= order_size)%R ->
  exists size_impact volatility_impact time_impact : R,
    calculate_slippage self now order_size symbol =
      Ok (5 + size_impact + volatility_impact + time_impact)%R /\
    (0 <= size_impact <= 0.5)%R /\
    (0 <= volatility_impact <= 20)%R /\
    (0 <= time_impact <= 5)%R /\
    (5 <= 5 + size_impact + volatility_impact + time_impact <= 30.5)%R.
Proof.
  intros Hself Hsize.
  destruct (engine_state_volatility self now Hself) as [v Hv].
  pose proof (get_current_volatility_nonneg _ _ _ Hv) as Hv0.
  rewrite (calculate_slippage_formula _ _ _ _ _ Hv).
  eexists _, _, _. split; [reflexivity|].
  assert (0 <= Rmin (order_size / 100000) 0.5 <= 0.5)%R as Hs
    by (unfold Rmin; destruct (Rle_dec _ _); lra).
  assert (0 <= Rmin (v * 1000) 20 <= 20)%R as Hvi
    by (unfold Rmin; destruct (Rle_dec _ _); lra).
  assert (0 <= (if bool_decide (2 <= hour now <= 6)%Z then 5 else 0) <= 5)%R as Ht
    by (destruct (bool_decide _); lra).
  repeat split; lra.
Qed.

(** * The risk scorer *)

Lemma add_risk_riskScore points why a :
  RiskAnalysis.riskScore (add_risk points why a) =
  (RiskAnalysis.riskScore a + points)%R.
Proof. reflexivity. Qed.

Ltac points_done :=
  rewrite ?add_risk_riskScore;
  repeat case_decide;
  first [ lra | exfalso; intuition (lia || lra) ].

(** ** Volatility and slippage stages *)

Lemma _analyze_volatility_risk_score self now order a v p :
  get_current_volatility (RiskAnalyzer.volatility_calculator self) now = Ok v ->
  get_volatility_percentile (RiskAnalyzer.volatility_calculator self) now 60
    = Ok p ->
  exists a',
    _analyze_volatility_risk self now order a = Ok a' /\
    RiskAnalysis.riskScore a' =
      (RiskAnalysis.riskScore a
       + volatility_points (RiskAnalyzer.settings self) v
       + percentile_points p)%R /\
    RiskAnalysis.orderId a' = RiskAnalysis.orderId a.
Proof.
  intros Hv Hp. unfold _analyze_volatility_risk. cbv zeta.
  rewrite Hv, Hp. cbn [mbind result_bind].
  eexists. split; [reflexivity|].
  unfold volatility_points, percentile_points.
  repeat case_decide; rewrite ?add_risk_riskScore; cbn;
    (split; [lra|reflexivity]).
Qed.

Lemma _analyze_slippage_risk_score self now order a bps :
  calculate_slippage (RiskAnalyzer.volatility_calculator self) now
    (order_notional order) (Order.symbol order) = Ok bps ->
  exists a',
    _analyze_slippage_risk self now order a = Ok a' /\
    RiskAnalysis.riskScore a' =
      (RiskAnalysis.riskScore a + slippage_points bps)%R /\
    RiskAnalysis.orderId a' = RiskAnalysis.orderId a.
Proof.
  intros Hs. unfold _analyze_slippage_risk. cbv zeta.
  fold (order_notional order). rewrite Hs. cbn [mbind result_bind].
  eexists. split; [reflexivity|].
  unfold slippage_points.
  repeat case_decide; rewrite ?add_risk_riskScore; cbn;
    (split; [lra|reflexivity]).
Qed.

(** ** User-behaviour stage *)

(** What the stage adds when it returns. *)
Lemma score_user_behavior_score user_data now order a a' :
  score_user_behavior user_data now order a = Ok a' ->
  RiskAnalysis.riskScore a' =
  (RiskAnalysis.riskScore a + user_points user_data now order)%R.
Proof.
  unfold score_user_behavior, user_points. cbv zeta.
  fold (trailing_orders user_data now). fold (order_notional order).
  unfold high_frequency, large_order, first_order.
  destruct (Nat.ltb_spec 10 (length (trailing_orders user_data now))) as [Hf|Hf];
  destruct (Z.ltb_spec 0 (UserData.total_orders user_data)) as [Hn|Hn];
  destruct (Z.eqb_spec (UserData.total_orders user_data) 0) as [Hz|Hz];
  try lia.
  all: try (rewrite (truediv_nonzero (UserData.total_volume user_data)
                       (IZR (UserData.total_orders user_data)))
              by (apply IZR_pos_neq_0; exact Hn);
            cbn [mbind result_bind]; fold (average_notional user_data);
            destruct (decide (order_notional order
                              > average_notional user_data * 5)%R);
            [destruct (truediv _ _); cbn [mbind result_bind]; [|discriminate]|]).
  all: cbn [mbind result_bind]; intros [= <-]; points_done.
Qed.

Lemma score_user_behavior_orderId user_data now order a a' :
  score_user_behavior user_data now order a = Ok a' ->
  RiskAnalysis.orderId a' = RiskAnalysis.orderId a.
Proof.
  unfold score_user_behavior. cbv zeta.
  destruct (10 <? _)%nat; destruct (0 <? _)%Z; destruct (_ =? 0)%Z.
  all: try (destruct (truediv _ _); cbn [mbind result_bind]; [|discriminate];
            destruct (decide _);
            [destruct (truediv _ _); cbn [mbind result_bind]; [|discriminate]|]).
  all: cbn [mbind result_bind]; intros [= <-]; reflexivity.
Qed.

(** The stage raises only when it formats the ratio of a large order to
    an average of zero. *)
Lemma score_user_behavior_returns user_data now order a :
  (large_order user_data order -> average_notional user_data <> 0%R) ->
  exists a', score_user_behavior user_data now order a = Ok a'.
Proof.
  intros Havg.
  unfold score_user_behavior. cbv zeta.
  fold (order_notional order).
  destruct (Z.ltb_spec 0 (UserData.total_orders user_data)) as [Hn|Hn].
  - rewrite (truediv_nonzero (UserData.total_volume user_data)
               (IZR (UserData.total_orders user_data)))
      by (apply IZR_pos_neq_0; exact Hn).
    cbn [mbind result_bind]. fold (average_notional user_data).
    destruct (decide (order_notional order > average_notional user_data * 5)%R)
      as [Hl|Hl].
    + rewrite truediv_nonzero by (apply Havg; split; assumption).
      cbn [mbind result_bind]. eauto.
    + cbn [mbind result_bind]. eauto.
  - cbn [mbind result_bind]. eauto.
Qed.

Lemma with_profile_lookup self user_id now :
  RiskAnalyzer.user_analytics (with_profile self user_id now) !! user_id =
  Some (user_profile self user_id now).
Proof.
  unfold with_profile, user_profile.
  destruct (RiskAnalyzer.user_analytics self !! user_id) eqn:E; cbn.
  - exact E.
  - apply lookup_insert_eq.
Qed.

Lemma with_profile_volatility_calculator self user_id now :
  RiskAnalyzer.volatility_calculator (with_profile self user_id now) =
  RiskAnalyzer.volatility_calculator self.
Proof. unfold with_profile. destruct (_ !! _); reflexivity. Qed.

(** The stage stores a zeroed profile for a new user, then scores the
    order against the user's profile. *)
Lemma _analyze_user_behavior_run now order a self :
  _analyze_user_behavior now order a self =
  (score_user_behavior (user_profile self (Order.userId order) now) now order a,
   with_profile self (Order.userId order) now).
Proof.
  unfold _analyze_user_behavior. cbv zeta.
  pose proof (with_profile_lookup self (Order.userId order) now) as Hl.
  unfold with_profile, user_profile in *.
  rewrite io_bind_get.
  destruct (RiskAnalyzer.user_analytics self !! Order.userId order) eqn:E.
  - rewrite io_bind_mret, io_bind_get. unfold getitem. rewrite E.
    reflexivity.
  - rewrite io_bind_put, io_bind_get. unfold getitem. rewrite Hl.
    reflexivity.
Qed.

(** C5, amended.  The user-behaviour stage adds 25 points when more than
    10 of the user's recorded orders lie in the trailing 5 minutes, 15
    points when the user has prior orders and this order's notional
    exceeds 5 times their average, and 5 points when the user has no prior
    order.  The frequency test is made on its own; the large-order and
    first-order tests exclude each other, so the three never fire on the
    same analysis and the stage adds at most 40 points. *)
Theorem analyze_user_behavior_conditions now order analysis self analysis' self' :
  _analyze_user_behavior now order analysis self = (Ok analysis', self') ->
  let user_data := user_profile self (Order.userId order) now in
  RiskAnalysis.riskScore analysis' =
    (RiskAnalysis.riskScore analysis
     + (if decide (high_frequency user_data now) then 25 else 0)
     + (if decide (large_order user_data order) then 15 else 0)
     + (if decide (first_order user_data) then 5 else 0))%R /\
  ~ (large_order user_data order /\ first_order user_data) /\
  (RiskAnalysis.riskScore analysis' <= RiskAnalysis.riskScore analysis + 40)%R.
Proof.
  rewrite _analyze_user_behavior_run. intros [= Hrun _]. cbv zeta.
  apply score_user_behavior_score in Hrun. unfold user_points in Hrun.
  assert (~ (large_order (user_profile self (Order.userId order) now) order
             /\ first_order (user_profile self (Order.userId order) now))) as Hex
    by (unfold large_order, first_order; lia).
  split; [lra|]. split; [exact Hex|].
  rewrite Hrun. repeat case_decide; try lra. tauto.
Qed.

(** ** Market stage *)

Lemma _analyze_market_conditions_score self now order a :
  (large_movement (RiskAnalyzer.volatility_calculator self) now order ->
   Order.price order <> 0%R) ->
  exists a',
    _analyze_market_conditions self now order a = Ok a' /\
    RiskAnalysis.riskScore a' =
      (RiskAnalysis.riskScore a
       + market_points (RiskAnalyzer.volatility_calculator self) now order)%R /\
    RiskAnalysis.orderId a' = RiskAnalysis.orderId a.
Proof.
  intros Hprice. unfold _analyze_market_conditions, market_points. cbv zeta.
  set (a1 := if ((hour now <? 9)%Z || (16 <? hour now)%Z) then _ else a).
  set (a2 := if (5 <=? weekday now)%Z then _ else a1).
  assert (RiskAnalysis.riskScore a2 =
          RiskAnalysis.riskScore a
          + (if decide (off_hours now) then 5 else 0)
          + (if decide (weekend now) then 10 else 0))%R as H2.
  2: assert (RiskAnalysis.orderId a2 = RiskAnalysis.orderId a) as Hid
       by (subst a1 a2; destruct (_ || _); destruct (_ <=? _)%Z; reflexivity).
  { subst a1 a2. unfold off_hours, weekend.
    destruct (Z.ltb_spec (hour now) 9); destruct (Z.ltb_spec 16 (hour now));
      destruct (Z.leb_spec 5 (weekday now)); cbn [orb];
      rewrite ?add_risk_riskScore; repeat case_decide; try lra;
      exfalso; intuition lia. }
  clearbody a2. clear a1.
  destruct (decide (large_movement _ now order)) as [Hm|Hm];
    [pose proof (Hprice Hm) as Hnz|];
    unfold large_movement, max_recent_change in Hm; cbv zeta in Hm;
    destruct (1 <? length _)%nat.
  - destruct (map _ _) as [|c cs]; [destruct Hm|]. cbn in Hm.
    rewrite decide_True by exact Hm.
    rewrite truediv_nonzero by exact Hnz. cbn [mbind result_bind].
    eexists. split; [reflexivity|]. rewrite add_risk_riskScore.
    split; [lra|exact Hid].
  - destruct Hm.
  - destruct (map _ _) as [|c cs].
    + eexists. split; [reflexivity|]. split; [lra|exact Hid].
    + cbn in Hm. rewrite decide_False by exact Hm.
      eexists. split; [reflexivity|]. split; [lra|exact Hid].
  - eexists. split; [reflexivity|]. split; [lra|exact Hid].
Qed.

(** ** Verdict *)

Lemma _determine_verdict_riskScore analysis :
  RiskAnalysis.riskScore (_determine_verdict analysis) =
  RiskAnalysis.riskScore analysis.
Proof.
  unfold _determine_verdict. cbv zeta.
  repeat case_decide; reflexivity.
Qed.

Lemma _determine_verdict_orderId analysis :
  RiskAnalysis.orderId (_determine_verdict analysis) =
  RiskAnalysis.orderId analysis.
Proof.
  unfold _determine_verdict. cbv zeta.
  repeat case_decide; reflexivity.
Qed.

Lemma _determine_verdict_bands analysis :
  let score := RiskAnalysis.riskScore analysis in
  let verdict := RiskAnalysis.verdict (_determine_verdict analysis) in
  ((score >= 70)%R -> verdict = REJECT) /\
  ((30 <= score < 70)%R -> verdict = WARN) /\
  ((score < 30)%R -> verdict = ACCEPT).
Proof.
  unfold _determine_verdict. cbv zeta.
  repeat case_decide; cbn; repeat split; intros; try reflexivity; lra.
Qed.

Lemma _update_user_analytics_returns now order analysis self user_data :
  RiskAnalyzer.user_analytics self !! Order.userId order = Some user_data ->
  exists self', _update_user_analytics now order analysis self = (Ok tt, self').
Proof.
  intros Hl. unfold _update_user_analytics. cbv zeta.
  rewrite io_bind_get. unfold getitem. rewrite Hl. rewrite io_bind_lift.
  unfold put. eauto.
Qed.

(** ** What a stage that returns tells about its inputs *)

Lemma lift_Ok {S A} (r : result A) (s : S) a s' :
  lift r s = (Ok a, s') -> r = Ok a /\ s' = s.
Proof. unfold lift. intros [= -> ->]. auto. Qed.

Lemma _analyze_volatility_risk_inv self now order a a' :
  _analyze_volatility_risk self now order a = Ok a' ->
  exists v p,
    get_current_volatility (RiskAnalyzer.volatility_calculator self) now = Ok v /\
    get_volatility_percentile (RiskAnalyzer.volatility_calculator self) now 60
      = Ok p.
Proof.
  unfold _analyze_volatility_risk. cbv zeta.
  destruct (get_current_volatility _ _) as [v|e]; [|discriminate].
  destruct (get_volatility_percentile _ _ _) as [p|e]; [|discriminate].
  eauto.
Qed.

Lemma _analyze_slippage_risk_inv self now order a a' :
  _analyze_slippage_risk self now order a = Ok a' ->
  exists bps,
    calculate_slippage (RiskAnalyzer.volatility_calculator self) now
      (order_notional order) (Order.symbol order) = Ok bps.
Proof.
  unfold _analyze_slippage_risk. cbv zeta. fold (order_notional order).
  destruct (calculate_slippage _ _ _ _) as [bps|e]; [eauto|discriminate].
Qed.

Lemma truediv_zero a : truediv a 0 = Raise ZeroDivisionError.
Proof. unfold truediv. rewrite decide_True by reflexivity. reflexivity. Qed.

Lemma score_user_behavior_inv user_data now order a a' :
  score_user_behavior user_data now order a = Ok a' ->
  large_order user_data order -> average_notional user_data <> 0%R.
Proof.
  intros Hrun [Hn Hl] Havg. revert Hrun.
  unfold score_user_behavior. cbv zeta. fold (order_notional order).
  apply Z.ltb_lt in Hn as Hn'. rewrite Hn'.
  rewrite (truediv_nonzero (UserData.total_volume user_data)
             (IZR (UserData.total_orders user_data)))
    by (apply IZR_pos_neq_0; exact Hn).
  cbn [mbind result_bind]. fold (average_notional user_data).
  rewrite decide_True by exact Hl.
  rewrite Havg, truediv_zero. discriminate.
Qed.

Lemma _analyze_market_conditions_inv self now order a a' :
  _analyze_market_conditions self now order a = Ok a' ->
  large_movement (RiskAnalyzer.volatility_calculator self) now order ->
  Order.price order <> 0%R.
Proof.
  intros Hrun Hm Hprice. revert Hrun.
  unfold large_movement, max_recent_change in Hm. cbv zeta in Hm.
  unfold _analyze_market_conditions. cbv zeta.
  destruct (1 <? length _)%nat; [|destruct Hm].
  destruct (map _ _) as [|c cs]; [destruct Hm|]. cbn in Hm.
  rewrite decide_True by exact Hm.
  rewrite Hprice, truediv_zero. discriminate.
Qed.

(** ** The range of the points *)

Lemma stage_points_ranges s v p bps user_data vc now order :
  (0 <= volatility_points s v <= 30)%R /\
  (0 <= percentile_points p <= 10)%R /\
  (0 <= slippage_points bps <= 20)%R /\
  (0 <= user_points user_data now order <= 40)%R /\
  (0 <= market_points vc now order <= 25)%R.
Proof.
  unfold volatility_points, percentile_points, slippage_points, user_points,
    market_points.
  assert (~ (large_order user_data order /\ first_order user_data)) as Hex
    by (unfold large_order, first_order; lia).
  repeat split; repeat case_decide; try lra; tauto.
Qed.

(** * The whole pass, for any codec *)

Section Pipeline.

Context `{codec : Codec}.

Lemma analyze_order_parse_raises start_time now order_data self e :
  _parse_order_data order_data = Raise e ->
  analyze_order start_time now order_data self = (Raise e, self).
Proof. intros Hparse. unfold analyze_order. rewrite Hparse. reflexivity. Qed.

(** The analysis [analyze_order] returns is the one [_determine_verdict]
    left, with the processing time filled in. *)
Lemma analyze_order_result start_time now order_data self analysis self' :
  analyze_order start_time now order_data self = (Ok analysis, self') ->
  exists scored,
    analysis =
      RiskAnalysis.set_processingTimeMs (elapsed_milliseconds (now - start_time)%Z)
        (_determine_verdict scored).
Proof.
  unfold analyze_order. intros Hrun.
  repeat (apply io_bind_Ok in Hrun as (? & ? & _ & Hrun)).
  injection Hrun as <- _. eauto.
Qed.

(** C1.  On every analysis [analyze_order] produces, the verdict follows
    from the accumulated risk score alone: REJECT when the score is at
    least 70, WARN when it is at least 30 and below 70, ACCEPT below 30;
    the bounds 70 and 30 belong to REJECT and WARN. *)
Theorem analyze_order_verdict start_time now order_data self analysis self' :
  analyze_order start_time now order_data self = (Ok analysis, self') ->
  let score := RiskAnalysis.riskScore analysis in
  let verdict := RiskAnalysis.verdict analysis in
  ((score >= 70)%R -> verdict = REJECT) /\
  ((30 <= score < 70)%R -> verdict = WARN) /\
  ((score < 30)%R -> verdict = ACCEPT).
Proof.
  intros Hrun. apply analyze_order_result in Hrun as [scored ->].
  unfold RiskAnalysis.set_processingTimeMs.
  cbn [RiskAnalysis.riskScore RiskAnalysis.verdict].
  rewrite _determine_verdict_riskScore.
  apply _determine_verdict_bands.
Qed.

(** How [analyze_order] assembles the score when every step returns: it
    starts from 0 and adds the points of the stages. *)
Lemma analyze_order_score start_time now order_data self order v p bps :
  let vc := RiskAnalyzer.volatility_calculator self in
  let user_data := user_profile self (Order.userId order) now in
  _parse_order_data order_data = Ok order ->
  get_current_volatility vc now = Ok v ->
  get_volatility_percentile vc now 60 = Ok p ->
  calculate_slippage vc now (order_notional order) (Order.symbol order) = Ok bps ->
  (large_order user_data order -> average_notional user_data <> 0%R) ->
  (large_movement vc now order -> Order.price order <> 0%R) ->
  exists analysis self',
    analyze_order start_time now order_data self = (Ok analysis, self') /\
    RiskAnalysis.orderId analysis = Order.orderId order /\
    RiskAnalysis.riskScore analysis =
      (0 + volatility_points (RiskAnalyzer.settings self) v
       + percentile_points p
       + slippage_points bps
       + user_points user_data now order
       + market_points vc now order)%R.
Proof.
  intros vc user_data Hparse Hv Hp Hbps Havg Hprice.
  unfold analyze_order. rewrite Hparse, io_bind_lift. cbv zeta.
  rewrite io_bind_get.
  set (a0 := RiskAnalysis.mk _ _ _ _ _ _ _ _ _ _).
  destruct (_analyze_volatility_risk_score self now order a0 v p Hv Hp)
    as (a1 & Hrun1 & Hs1 & Hid1).
  rewrite Hrun1, io_bind_lift.
  destruct (_analyze_slippage_risk_score self now order a1 bps Hbps)
    as (a2 & Hrun2 & Hs2 & Hid2).
  rewrite Hrun2, io_bind_lift.
  destruct (score_user_behavior_returns user_data now order a2 Havg)
    as (a3 & Hrun3).
  pose proof (score_user_behavior_score _ _ _ _ _ Hrun3) as Hs3.
  pose proof (score_user_behavior_orderId _ _ _ _ _ Hrun3) as Hid3.
  rewrite (io_bind_run _ _ _ a3 (with_profile self (Order.userId order) now))
    by (rewrite _analyze_user_behavior_run; fold user_data; rewrite Hrun3;
        reflexivity).
  rewrite io_bind_get.
  unfold vc in Hprice.
  rewrite <- (with_profile_volatility_calculator self (Order.userId order) now)
    in Hprice.
  destruct (_analyze_market_conditions_score
              (with_profile self (Order.userId order) now) now order a3 Hprice)
    as (a4 & Hrun4 & Hs4 & Hid4).
  rewrite Hrun4, io_bind_lift.
  rewrite with_profile_volatility_calculator in Hs4.
  destruct (_update_user_analytics_returns now order
              (RiskAnalysis.set_processingTimeMs
                 (elapsed_milliseconds (now - start_time)%Z)
                 (_determine_verdict a4))
              (with_profile self (Order.userId order) now) user_data
              (with_profile_lookup _ _ _)) as (self' & Hrun5).
  rewrite (io_bind_run _ _ _ _ _ Hrun5).
  eexists _, _. split; [reflexivity|].
  unfold RiskAnalysis.set_processingTimeMs.
  cbn [RiskAnalysis.riskScore RiskAnalysis.orderId].
  rewrite _determine_verdict_riskScore, _determine_verdict_orderId.
  split; [|subst a0; cbn in Hs1; fold vc in Hs4; lra].
  rewrite Hid4, Hid3, Hid2, Hid1. reflexivity.
Qed.

(** Every analysis [analyze_order] returns carries the sum of the points of
    the stages, each of them non-negative. *)
Lemma analyze_order_score_sum start_time now order_data self analysis self' :
  analyze_order start_time now order_data self = (Ok analysis, self') ->
  exists order v p bps,
    let vc := RiskAnalyzer.volatility_calculator self in
    _parse_order_data order_data = Ok order /\
    get_current_volatility vc now = Ok v /\
    get_volatility_percentile vc now 60 = Ok p /\
    calculate_slippage vc now (order_notional order) (Order.symbol order)
      = Ok bps /\
    RiskAnalysis.riskScore analysis =
      (0 + volatility_points (RiskAnalyzer.settings self) v
       + percentile_points p
       + slippage_points bps
       + user_points (user_profile self (Order.userId order) now) now order
       + market_points vc now order)%R.
Proof.
  intros Hrun. pose proof Hrun as Hrun0.
  unfold analyze_order in Hrun.
  apply io_bind_Ok in Hrun as (order & s1 & Hparse & Hrun).
  apply lift_Ok in Hparse as [Hparse ->].
  cbv zeta in Hrun. rewrite io_bind_get in Hrun.
  apply io_bind_Ok in Hrun as (a1 & s1 & H1 & Hrun).
  apply lift_Ok in H1 as [H1 ->].
  apply io_bind_Ok in Hrun as (a2 & s1 & H2 & Hrun).
  apply lift_Ok in H2 as [H2 ->].
  apply io_bind_Ok in Hrun as (a3 & s1 & H3 & Hrun).
  rewrite _analyze_user_behavior_run in H3. injection H3 as H3 <-.
  rewrite io_bind_get in Hrun.
  apply io_bind_Ok in Hrun as (a4 & s1 & H4 & _).
  apply lift_Ok in H4 as [H4 _].
  apply _analyze_volatility_risk_inv in H1 as (v & p & Hv & Hp).
  apply _analyze_slippage_risk_inv in H2 as (bps & Hbps).
  pose proof (score_user_behavior_inv _ _ _ _ _ H3) as Havg.
  pose proof (_analyze_market_conditions_inv _ _ _ _ _ H4) as Hprice.
  rewrite with_profile_volatility_calculator in Hprice.
  destruct (analyze_order_score start_time now order_data self order v p bps
              Hparse Hv Hp Hbps Havg Hprice)
    as (analysis2 & self2 & Hrun2 & _ & Hscore).
  rewrite Hrun2 in Hrun0. injection Hrun0 as <- _.
  exists order, v, p, bps. cbv zeta. auto.
Qed.

(** X9.  The score of an analysis [analyze_order] returns is never
    negative and never above 125. *)
Lemma analyze_order_score_range start_time now order_data self analysis self' :
  analyze_order start_time now order_data self = (Ok analysis, self') ->
  (0 <= RiskAnalysis.riskScore analysis <= 125)%R.
Proof.
  intros Hrun.
  apply analyze_order_score_sum in Hrun
    as (order & v & p & bps & _ & _ & _ & _ & ->).
  pose proof (stage_points_ranges (RiskAnalyzer.settings self) v p bps
                (user_profile self (Order.userId order) now)
                (RiskAnalyzer.volatility_calculator self) now order).
  lra.
Qed.
(** C10.  When the message mapping has an [orderData] key,
    [_parse_order_data] builds the order from the JSON payload of that
    field and from nothing else: every mapping with the same payload
    parses to the same result, whatever its other fields. *)
Theorem parse_order_data_payload_only
    (order_data : gmap string string) (payload : string) :
  order_data !! "orderData" = Some payload ->
  _parse_order_data order_data = (json_loads payload ≫= Order_kwargs) /\
  forall other : gmap string string,
    other !! "orderData" = Some payload ->
    _parse_order_data other = _parse_order_data order_data.
Proof.
  intros Hpayload.
  assert (forall d : gmap string string,
             d !! "orderData" = Some payload ->
             _parse_order_data d = (json_loads payload ≫= Order_kwargs)) as Hread
    by (intros d Hd; unfold _parse_order_data; rewrite Hd; reflexivity).
  split; [apply Hread; exact Hpayload|].
  intros other Hother. rewrite (Hread _ Hother), (Hread _ Hpayload). reflexivity.
Qed.

(** ** The consumer, one message at a time *)

(** A message whose analysis raises stays pending and stores nothing. *)
Lemma process_entries_analysis_raises start_time now msg_id fields
    ra rc run e ra' :
  analyze_order start_time now fields ra = (Raise e, ra') ->
  process_entries start_time now [(msg_id, fields)] (RedisConsumer.mk ra rc run)
  = (Ok tt, RedisConsumer.mk ra' rc run).
Proof.
  intros Hrun.
  unfold process_entries, _process_single_message, try_except, on_risk_analyzer,
    mbind, io_bind.
  cbn [RedisConsumer.risk_analyzer RedisConsumer.redis_client
       RedisConsumer.running].
  rewrite Hrun. reflexivity.
Qed.

Lemma process_entries_parse_raises start_time now msg_id fields self e :
  _parse_order_data fields = Raise e ->
  process_entries start_time now [(msg_id, fields)] self = (Ok tt, self).
Proof.
  intros Hparse. destruct self as [ra rc run].
  apply (process_entries_analysis_raises _ _ _ _ _ _ _ e).
  apply analyze_order_parse_raises. exact Hparse.
Qed.

(** A message that goes through: its result is stored under its key with
    a day to live, and it leaves the pending entries. *)
Lemma process_entries_success start_time now msg_id fields
    ra rc run analysis ra' :
  analyze_order start_time now fields ra = (Ok analysis, ra') ->
  (forall c, Redis.fails rc c = false) ->
  exists rc',
    process_entries start_time now [(msg_id, fields)] (RedisConsumer.mk ra rc run)
    = (Ok tt, RedisConsumer.mk ra' rc' run) /\
    is_Some (Redis.hashes rc' !! analysis_key analysis) /\
    Redis.expires rc' !! analysis_key analysis = Some 86400%Z /\
    Redis.pending rc' = Redis.pending rc ∖ {[msg_id]}.
Proof.
  intros Hrun Hok.
  unfold process_entries, _process_single_message, _store_analysis_result,
    try_except, on_risk_analyzer, on_redis_client, hset, expire, xack,
    mbind, io_bind.
  cbn [RedisConsumer.risk_analyzer RedisConsumer.redis_client
       RedisConsumer.running].
  rewrite Hrun. fold (analysis_key analysis).
  cbn [RedisConsumer.risk_analyzer RedisConsumer.redis_client
       RedisConsumer.running Redis.fails Redis.hashes Redis.expires
       Redis.pending].
  rewrite !Hok.
  cbn [mret io_ret RedisConsumer.risk_analyzer RedisConsumer.redis_client
       RedisConsumer.running Redis.fails Redis.hashes Redis.expires
       Redis.pending].
  rewrite !Hok.
  cbn [mret io_ret RedisConsumer.risk_analyzer RedisConsumer.redis_client
       RedisConsumer.running Redis.fails Redis.hashes Redis.expires
       Redis.pending].
  rewrite !Hok.
  eexists. split; [reflexivity|].
  cbn [Redis.fails Redis.hashes Redis.expires Redis.pending].
  rewrite !lookup_insert_eq. eauto.
Qed.

(** A message whose analysis returns and whose [HSET] fails:
    [_store_analysis_result] swallows the error, so the message is
    acknowledged with nothing stored. *)
Lemma process_entries_hset_fails start_time now msg_id fields
    ra rc run analysis ra' :
  analyze_order start_time now fields ra = (Ok analysis, ra') ->
  Redis.fails rc (HSET (analysis_key analysis)) = true ->
  Redis.fails rc (XACK stream_name consumer_group msg_id) = false ->
  process_entries start_time now [(msg_id, fields)] (RedisConsumer.mk ra rc run)
  = (Ok tt,
     RedisConsumer.mk ra'
       (Redis.mk (Redis.hashes rc) (Redis.expires rc)
          (Redis.pending rc ∖ {[msg_id]}) (Redis.fails rc)) run).
Proof.
  intros Hrun Hhset Hxack.
  unfold process_entries, _process_single_message, _store_analysis_result,
    try_except, on_risk_analyzer, on_redis_client, hset, xack, mbind, io_bind.
  cbn [RedisConsumer.risk_analyzer RedisConsumer.redis_client
       RedisConsumer.running].
  rewrite Hrun. fold (analysis_key analysis).
  cbn [RedisConsumer.risk_analyzer RedisConsumer.redis_client
       RedisConsumer.running].
  rewrite Hhset.
  cbn [mret io_ret RedisConsumer.risk_analyzer RedisConsumer.redis_client
       RedisConsumer.running].
  rewrite Hxack. reflexivity.
Qed.

End Pipeline.

(** * More on the volatility engine *)

(** ** The price window *)

Lemma last_n_short {A} n (l : list A) : (length l <= n)%nat -> last_n n l = l.
Proof.
  intros H. unfold last_n. replace (length l - n)%nat with 0%nat by lia.
  reflexivity.
Qed.

Lemma last_n_length {A} n (l : list A) :
  length (last_n n l) = Nat.min n (length l).
Proof. unfold last_n. rewrite length_skipn. lia. Qed.

Lemma last_n_snoc {A} n (l : list A) x :
  last_n n (last_n n l ++ [x]) = last_n n (l ++ [x]).
Proof.
  destruct n as [|n].
  { unfold last_n. rewrite !Nat.sub_0_r, !drop_all. reflexivity. }
  unfold last_n. rewrite !length_app, length_skipn. cbn [length].
  destruct (Nat.le_gt_cases (length l) (S n)) as [Hle|Hgt].
  - replace (length l - S n)%nat with 0%nat by lia. cbn [skipn].
    f_equal. lia.
  - replace (length l - (length l - S n) + 1 - S n)%nat with 1%nat by lia.
    replace (length l + 1 - S n)%nat with (length l - S n + 1)%nat by lia.
    rewrite (drop_app_le l [x] (length l - S n + 1)) by lia.
    rewrite (drop_app_le (drop (length l - S n) l) [x] 1)
      by (rewrite length_drop; lia).
    rewrite drop_drop. reflexivity.
Qed.

Lemma deque_append_last_n {A} maxlen (d : list A) x :
  deque_append maxlen d x = last_n maxlen (d ++ [x]).
Proof. reflexivity. Qed.

Lemma run_feed_snoc self ticks t :
  run_feed self (ticks ++ [t]) = feed_tick (run_feed self ticks) t.
Proof. unfold run_feed. rewrite fold_left_app. reflexivity. Qed.

Lemma run_feed_timestamps s t0 ticks :
  map PricePoint.timestamp
    (VolatilityCalculator.price_history
       (run_feed (VolatilityCalculator_init s t0) ticks)) =
  last_n price_history_maxlen (map tick_time ticks).
Proof.
  induction ticks as [|t ticks IH] using rev_ind.
  - reflexivity.
  - rewrite run_feed_snoc. unfold feed_tick, _update_price. cbv zeta.
    cbn [VolatilityCalculator.price_history].
    rewrite deque_append_last_n. unfold last_n at 1.
    rewrite <- (skipn_map PricePoint.timestamp), length_app, map_app.
    cbn [map PricePoint.timestamp length].
    rewrite IH. rewrite <- (length_map PricePoint.timestamp), IH.
    rewrite map_app. cbn [map].
    rewrite <- last_n_snoc. unfold last_n at 3.
    rewrite length_app. cbn [length]. reflexivity.
Qed.

(** X1.  However many ticks the feed has run since the engine was
    created, the price window holds the points of the latest 1000 of them,
    oldest first, and no other. *)
Theorem price_window_keeps_latest s t0 ticks :
  let self := run_feed (VolatilityCalculator_init s t0) ticks in
  length (VolatilityCalculator.price_history self) =
    Nat.min 1000 (length ticks) /\
  map PricePoint.timestamp (VolatilityCalculator.price_history self) =
    last_n 1000 (map tick_time ticks).
Proof.
  cbv zeta. pose proof (run_feed_timestamps s t0 ticks) as H.
  split; [|exact H].
  rewrite <- (length_map PricePoint.timestamp), H, last_n_length, length_map.
  reflexivity.
Qed.

Lemma deque_append_last {A} maxlen (d : list A) x :
  (0 < maxlen)%nat -> List.last (deque_append maxlen d x) x = x.
Proof.
  intros Hm. unfold deque_append. cbv zeta.
  rewrite length_app. cbn [length].
  rewrite (drop_app_le d [x]) by lia. apply last_last.
Qed.

Lemma last_cons_default {A} (a d : A) l :
  List.last (a :: l) d = List.last l a.
Proof.
  revert a d. induction l as [|b l IH]; intros a d; [reflexivity|].
  change (List.last (a :: b :: l) d) with (List.last (b :: l) d).
  change (List.last (b :: l) a) with
    (match l with [] => b | _ => List.last l a end).
  rewrite IH. destruct l; [reflexivity|]. symmetry. apply IH.
Qed.

(** X2.  Before the first tick the current price is the configured
    starting price and the last update is the clock the constructor read.
    After any number of ticks the current price is the price of the latest
    point of the window, at least the floor of 1000; that point carries
    the second clock read of the last tick and the last update is its
    third clock read. *)
Theorem engine_current_price_is_latest s t0 ticks :
  let self := run_feed (VolatilityCalculator_init s t0) ticks in
  match last ticks with
  | None =>
      latest_point self = None /\
      get_current_price self = Settings.btc_starting_price s /\
      get_last_update self = t0
  | Some t =>
      exists latest,
        latest_point self = Some latest /\
        get_current_price self = PricePoint.price latest /\
        (1000 <= get_current_price self)%R /\
        PricePoint.timestamp latest = tick_time t /\
        get_last_update self = tick_updated t
  end.
Proof.
  cbv zeta. destruct ticks as [|t ticks _] using rev_ind.
  - repeat split.
  - rewrite last_snoc, run_feed_snoc.
    unfold latest_point, feed_tick, _update_price, get_current_price,
      get_last_update.
    cbv zeta.
    cbn [VolatilityCalculator.price_history VolatilityCalculator.current_price
         VolatilityCalculator.last_update].
    set (self := run_feed _ ticks).
    set (x := PricePoint.mk _ _ _).
    pose proof (deque_append_last price_history_maxlen
                  (VolatilityCalculator.price_history self) x) as Hlast.
    destruct (deque_append _ _ _) as [|p history] eqn:E.
    + apply (f_equal (@length _)) in E. unfold deque_append in E.
      rewrite length_skipn, length_app in E. cbn in E.
      unfold price_history_maxlen in E. lia.
    + assert (List.last history p = x) as ->
        by (rewrite <- last_cons_default with (d := x); apply Hlast;
            unfold price_history_maxlen; lia).
      exists x. subst x. cbn [PricePoint.price PricePoint.timestamp].
      split; [reflexivity|]. split; [reflexivity|].
      split; [apply Rmax_r|]. split; reflexivity.
Qed.

(** ** The estimate *)

(** X3.  Whenever [get_current_volatility] returns, its value is not
    negative. *)
Theorem volatility_never_negative self now v :
  get_current_volatility self now = Ok v -> (0 <= v)%R.
Proof. apply get_current_volatility_nonneg. Qed.

Lemma Rsum_zeros l : Forall (fun x => x = 0%R) l -> Rsum l = 0%R.
Proof.
  induction 1 as [|x l -> _ IH]; [reflexivity|].
  change (Rsum (0%R :: l)) with (0 + Rsum l)%R. rewrite IH. lra.
Qed.

Lemma np_std_zeros l : Forall (fun x => x = 0%R) l -> np_std l = 0%R.
Proof.
  intros Hz. unfold np_std, np_mean at 1.
  rewrite Rsum_zeros.
  - unfold Rdiv. rewrite Rmult_0_l. apply sqrt_0.
  - apply List.Forall_forall. intros y Hy.
    apply in_map_iff in Hy as (x & <- & Hx).
    pose proof (proj1 (List.Forall_forall _ l) Hz x Hx) as Hx0. cbn in Hx0.
    subst x. unfold np_mean. rewrite (Rsum_zeros l Hz).
    unfold Rdiv. rewrite Rmult_0_l, Rminus_0_r, Rabs_R0. lra.
Qed.

Lemma consecutive_returns_flat c prices :
  c <> 0%R ->
  Forall (fun p => PricePoint.price p = c) prices ->
  Forall (fun r => r = 0%R) (consecutive_returns prices).
Proof.
  intros Hc. induction prices as [|prev [|cur rest] IH]; intros Hflat.
  - constructor.
  - constructor.
  - inversion Hflat as [|? ? Hprev Hrest]; subst.
    inversion Hrest as [|? ? Hcur _]; subst.
    change (consecutive_returns (prev :: cur :: rest)) with
      (((PricePoint.price cur - PricePoint.price prev) / PricePoint.price prev)%R
         :: consecutive_returns (cur :: rest)).
    constructor; [|apply IH; exact Hrest].
    rewrite Hcur. unfold Rdiv. rewrite Rminus_diag. apply Rmult_0_l.
Qed.

(** X4.  When the points within the trailing window all carry the same
    non-zero price, [get_current_volatility] returns exactly 0. *)
Theorem flat_prices_zero_volatility self now c :
  c <> 0%R ->
  Forall (fun p => PricePoint.price p = c)
    (get_price_history self now (volatility_window self)) ->
  get_current_volatility self now = Ok 0%R.
Proof.
  intros Hc Hflat.
  destruct (Nat.lt_ge_cases
              (length (VolatilityCalculator.price_history self)) 10) as [Hl|Hl].
  { unfold get_current_volatility. cbv zeta.
    apply Nat.ltb_lt in Hl. rewrite Hl. reflexivity. }
  destruct (Nat.lt_ge_cases
              (length (get_price_history self now (volatility_window self))) 2)
    as [Hq|Hq].
  { unfold get_current_volatility. cbv zeta.
    apply Nat.ltb_ge in Hl. rewrite Hl.
    unfold get_price_history, volatility_window in Hq.
    apply Nat.ltb_lt in Hq. rewrite Hq. reflexivity. }
  rewrite get_current_volatility_warm; try assumption.
  - rewrite np_std_zeros by (apply (consecutive_returns_flat c); assumption).
    f_equal. lra.
  - eapply Forall_impl; [exact Hflat|]. cbn. intros p ->. exact Hc.
Qed.

(** ** The percentile *)

Lemma range_from_In n start step i :
  In i (range_from n start step) ->
  exists j, (0 <= j < Z.of_nat n)%Z /\ i = (start + j * step)%Z.
Proof.
  revert start. induction n as [|n IH]; intros start; cbn [range_from].
  - intros [].
  - intros [<-|Hin].
    + exists 0%Z. split; lia.
    + apply IH in Hin as (j & Hj & ->). exists (j + 1)%Z. split; lia.
Qed.

Lemma py_range_In start stop step i :
  (0 < step)%Z ->
  In i (py_range start stop step) -> (start <= i < stop)%Z.
Proof.
  intros Hstep Hin. unfold py_range in Hin.
  apply range_from_In in Hin as (j & Hj & ->).
  set (q := ((stop - start + step - 1) / step)%Z) in *.
  assert (0 < q)%Z as Hq by lia.
  rewrite Z2Nat.id in Hj by lia.
  pose proof (Z.mul_div_le (stop - start + step - 1) step Hstep) as Hle.
  fold q in Hle. nia.
Qed.

Lemma py_range_empty start stop step :
  (0 < step)%Z -> (stop <= start)%Z -> py_range start stop step = [].
Proof.
  intros Hstep Hstop. unfold py_range.
  assert ((stop - start + step - 1) / step < 1)%Z as Hq
    by (apply Z.div_lt_upper_bound; lia).
  replace (Z.to_nat _) with 0%nat by lia. reflexivity.
Qed.

Lemma sample_block_returns history cutoff vols i :
  Forall (fun p => PricePoint.price p <> 0%R) history ->
  (0 <= i < Z.of_nat (length history))%Z ->
  exists vols', sample_block history cutoff vols i = Ok vols'.
Proof.
  intros Hnz Hi. unfold sample_block.
  destruct (history !! Z.to_nat i) as [p|] eqn:E.
  - cbv zeta. destruct (_ <? _)%Z; [eauto|].
    destruct (_ <? 2)%nat; [eauto|].
    rewrite simple_returns_nonzero
      by (apply Forall_take, Forall_drop; exact Hnz).
    cbn [mbind result_bind]. destruct (consecutive_returns _); eauto.
  - apply lookup_ge_None in E. lia.
Qed.

Lemma sample_blocks_returns history cutoff indices : forall vols,
  Forall (fun p => PricePoint.price p <> 0%R) history ->
  Forall (fun i => (0 <= i < Z.of_nat (length history))%Z) indices ->
  exists vols', sample_blocks history cutoff vols indices = Ok vols'.
Proof.
  induction indices as [|i indices IH]; intros vols Hnz Hidx; cbn [sample_blocks].
  - eauto.
  - inversion Hidx as [|? ? Hi Hrest]; subst.
    destruct (sample_block_returns history cutoff vols i Hnz Hi) as [vols1 ->].
    cbn [mbind result_bind]. apply IH; assumption.
Qed.

Lemma minutes_before_raises d minutes e :
  minutes_before d minutes = Raise e -> e = OverflowError.
Proof.
  unfold minutes_before, timedelta, datetime_sub. cbv zeta.
  destruct (_ && _); cbn [mbind result_bind]; [|congruence].
  destruct (_ && _); congruence.
Qed.

Lemma get_volatility_percentile_returns self now lookback cutoff :
  Forall (fun p => PricePoint.price p <> 0%R)
    (VolatilityCalculator.price_history self) ->
  minutes_before now lookback = Ok cutoff ->
  exists p, get_volatility_percentile self now lookback = Ok p.
Proof.
  intros Hnz Hcutoff. unfold get_volatility_percentile. cbv zeta.
  destruct (get_current_volatility_returns self now Hnz) as [v ->].
  cbn [mbind result_bind]. rewrite Hcutoff. cbn [mbind result_bind].
  destruct (sample_blocks_returns (VolatilityCalculator.price_history self)
              cutoff
              (py_range 0
                 (Z.of_nat (length (VolatilityCalculator.price_history self)) - 10)
                 10) [] Hnz) as [vols ->].
  - apply List.Forall_forall. intros i Hi.
    apply py_range_In in Hi; lia.
  - cbn [mbind result_bind]. destruct vols; eauto.
Qed.

Lemma get_volatility_percentile_overflow self now lookback v e :
  get_current_volatility self now = Ok v ->
  minutes_before now lookback = Raise e ->
  get_volatility_percentile self now lookback = Raise OverflowError.
Proof.
  intros Hv Hcutoff. unfold get_volatility_percentile. cbv zeta.
  rewrite Hv. cbn [mbind result_bind]. rewrite Hcutoff.
  cbn [mbind result_bind]. f_equal.
  exact (minutes_before_raises _ _ _ Hcutoff).
Qed.

Lemma get_volatility_percentile_range self now lookback p :
  get_volatility_percentile self now lookback = Ok p ->
  (0 <= p <= 100)%R.
Proof.
  unfold get_volatility_percentile. cbv zeta.
  destruct (get_current_volatility self now) as [v|e]; [|discriminate].
  cbn [mbind result_bind].
  destruct (minutes_before now lookback) as [cutoff|e]; [|discriminate].
  cbn [mbind result_bind].
  destruct (sample_blocks _ _ _ _) as [vols|e]; [|discriminate].
  cbn [mbind result_bind].
  destruct vols as [|vol vols]; [intros [= <-]; lra|].
  intros [= <-].
  set (l := vol :: vols).
  set (below := List.filter (fun x => bool_decide (x < v)%R) l).
  assert (0 < INR (length l))%R as Hn by (apply lt_0_INR; cbn; lia).
  assert (0 <= INR (length below))%R as H0 by apply pos_INR.
  assert (INR (length below) <= INR (length l))%R as Hle
    by (apply le_INR, filter_length_le).
  assert (0 <= INR (length below) / INR (length l) <= 1)%R as [Hlo Hhi].
  { split.
    - apply Rmult_le_pos; [exact H0|]. left. apply Rinv_0_lt_compat. exact Hn.
    - apply (Rmult_le_reg_r (INR (length l))); [exact Hn|].
      unfold Rdiv. rewrite Rmult_assoc, Rinv_l by lra. lra. }
  change (0 <= INR (length below) / INR (length l) * 100 <= 100)%R. lra.
Qed.

(** X6.  In every engine state [get_volatility_percentile] returns a
    value between 0 and 100 for every lookback whose cutoff
    [now - timedelta(minutes=lookback)] is a [datetime]; for any other
    lookback it raises [OverflowError]. *)
Theorem engine_percentile_in_range self now lookback :
  engine_state self ->
  match minutes_before now lookback with
  | Ok _ =>
      exists p,
        get_volatility_percentile self now lookback = Ok p /\ (0 <= p <= 100)%R
  | Raise _ => get_volatility_percentile self now lookback = Raise OverflowError
  end.
Proof.
  intros Hself.
  assert (Forall (fun p => PricePoint.price p <> 0%R)
            (VolatilityCalculator.price_history self)) as Hnz.
  { eapply Forall_impl; [apply engine_state_prices; exact Hself|].
    cbn. intros q Hq. lra. }
  destruct (minutes_before now lookback) as [cutoff|e] eqn:Hcutoff.
  - destruct (get_volatility_percentile_returns self now lookback cutoff
                Hnz Hcutoff) as [p Hp].
    exists p. split; [exact Hp|].
    exact (get_volatility_percentile_range _ _ _ _ Hp).
  - destruct (get_current_volatility_returns self now Hnz) as [v Hv].
    exact (get_volatility_percentile_overflow self now lookback v e Hv Hcutoff).
Qed.

Lemma get_current_volatility_cold self now :
  (length (VolatilityCalculator.price_history self) < 10)%nat ->
  get_current_volatility self now = Ok 0%R.
Proof.
  intros Hlen. unfold get_current_volatility. cbv zeta.
  apply Nat.ltb_lt in Hlen. rewrite Hlen. reflexivity.
Qed.

Lemma get_volatility_percentile_no_blocks self now lookback v cutoff :
  (length (VolatilityCalculator.price_history self) <= 10)%nat ->
  get_current_volatility self now = Ok v ->
  minutes_before now lookback = Ok cutoff ->
  get_volatility_percentile self now lookback = Ok 50%R.
Proof.
  intros Hlen Hv Hcutoff. unfold get_volatility_percentile. cbv zeta.
  rewrite Hv. cbn [mbind result_bind]. rewrite Hcutoff.
  cbn [mbind result_bind].
  rewrite py_range_empty by lia. reflexivity.
Qed.

Lemma get_volatility_percentile_no_blocks_inv self now lookback p :
  (length (VolatilityCalculator.price_history self) <= 10)%nat ->
  get_volatility_percentile self now lookback = Ok p ->
  p = 50%R.
Proof.
  intros Hlen. unfold get_volatility_percentile. cbv zeta.
  destruct (get_current_volatility self now) as [v|e]; [|discriminate].
  cbn [mbind result_bind].
  destruct (minutes_before now lookback) as [cutoff|e]; [|discriminate].
  cbn [mbind result_bind].
  rewrite py_range_empty by lia. cbn [sample_blocks mbind result_bind].
  congruence.
Qed.

(** X7.  While the window holds at most 10 points there is no block to
    compare with: [get_volatility_percentile] returns the neutral 50
    whenever the current volatility can be computed, whatever its value,
    for every lookback whose cutoff is a [datetime]. *)
Theorem percentile_neutral_without_blocks self now lookback v cutoff :
  (length (VolatilityCalculator.price_history self) <= 10)%nat ->
  get_current_volatility self now = Ok v ->
  minutes_before now lookback = Ok cutoff ->
  get_volatility_percentile self now lookback = Ok 50%R.
Proof.
  exact (get_volatility_percentile_no_blocks self now lookback v cutoff).
Qed.

(** * More on the risk scorer *)

(** ** The tracker *)

Lemma _update_user_analytics_run now order analysis self user_data :
  RiskAnalyzer.user_analytics self !! Order.userId order = Some user_data ->
  exists after,
    _update_user_analytics now order analysis self =
      (Ok tt,
       RiskAnalyzer.set_user_analytics
         (<[Order.userId order := after]> (RiskAnalyzer.user_analytics self))
         self) /\
    profile_updated user_data after now order analysis.
Proof.
  intros Hl. unfold _update_user_analytics. cbv zeta.
  rewrite io_bind_get. unfold getitem. rewrite Hl. rewrite io_bind_lift.
  unfold put. eexists. split; [reflexivity|].
  unfold profile_updated, order_summary, order_notional.
  cbn [UserData.total_orders UserData.total_volume UserData.recent_orders
       UserData.risk_events UserData.last_activity].
  repeat split.
  - unfold recent_orders_maxlen.
    destruct (Nat.ltb_spec 100
                (length (UserData.recent_orders user_data
                         ++ [RecentOrder.mk (Order.orderId order)
                               (Order.timestamp order)
                               (Order.quantity order * Order.price order)
                               (RiskAnalysis.riskScore analysis)])));
      [reflexivity|].
    symmetry. apply last_n_short. lia.
  - destruct (RiskAnalysis.verdict analysis); lia.
Qed.

Lemma with_profile_get self user_id now u :
  get_user_analytics (with_profile self user_id now) u =
  if decide (user_id = u) then Some (user_profile self user_id now)
  else get_user_analytics self u.
Proof.
  unfold get_user_analytics.
  case_decide as Hu.
  - subst u. apply with_profile_lookup.
  - unfold with_profile. destruct (_ !! user_id); [reflexivity|].
    cbn. apply lookup_insert_ne. exact Hu.
Qed.

Lemma profile_updated_bounds before after now order analysis :
  profile_bounds before ->
  profile_updated before after now order analysis ->
  profile_bounds after.
Proof.
  intros (Hcap & Hcount & Hrisk) (Htotal & _ & Hrecent & Hevents & _).
  unfold profile_bounds.
  rewrite Htotal, Hrecent, Hevents, last_n_length, length_app. cbn [length].
  destruct (RiskAnalysis.verdict analysis); lia.
Qed.

Lemma zero_profile_bounds now : profile_bounds (UserData.mk 0 0%R [] 0 now).
Proof. unfold profile_bounds. cbn. lia. Qed.

Lemma score_user_behavior_recorded user_data now order a a' :
  score_user_behavior user_data now order a = Ok a' ->
  recorded a' = recorded a.
Proof.
  unfold score_user_behavior. cbv zeta.
  destruct (10 <? _)%nat; destruct (0 <? _)%Z; destruct (_ =? 0)%Z.
  all: try (destruct (truediv _ _); cbn [mbind result_bind]; [|discriminate];
            destruct (decide _);
            [destruct (truediv _ _); cbn [mbind result_bind]; [|discriminate]|]).
  all: cbn [mbind result_bind]; intros [= <-]; reflexivity.
Qed.

Lemma _analyze_market_conditions_recorded self now order a a' :
  _analyze_market_conditions self now order a = Ok a' ->
  recorded a' = recorded a.
Proof.
  unfold _analyze_market_conditions. cbv zeta.
  set (a1 := if ((hour now <? 9)%Z || (16 <? hour now)%Z) then _ else a).
  set (a2 := if (5 <=? weekday now)%Z then _ else a1).
  assert (recorded a2 = recorded a) as <-
    by (subst a1 a2; destruct (_ || _); destruct (_ <=? _)%Z; reflexivity).
  clearbody a2. clear a1.
  destruct (1 <? _)%nat; [|intros [= <-]; reflexivity].
  destruct (map _ _); [intros [= <-]; reflexivity|].
  destruct (decide _); [|intros [= <-]; reflexivity].
  destruct (truediv _ _); cbn [mbind result_bind]; [|discriminate].
  intros [= <-]. reflexivity.
Qed.

Lemma _determine_verdict_recorded a :
  recorded (_determine_verdict a) = recorded a.
Proof.
  unfold _determine_verdict. cbv zeta. repeat case_decide; reflexivity.
Qed.

Lemma _analyze_volatility_risk_recorded self now order a a' :
  _analyze_volatility_risk self now order a = Ok a' ->
  exists v,
    get_current_volatility (RiskAnalyzer.volatility_calculator self) now = Ok v /\
    recorded a' =
      (RiskAnalysis.orderId a, RiskAnalysis.userId a, RiskAnalysis.symbol a,
       v, RiskAnalysis.slippage a).
Proof.
  unfold _analyze_volatility_risk. cbv zeta.
  destruct (get_current_volatility _ _) as [v|e]; [|discriminate].
  destruct (get_volatility_percentile _ _ _) as [p|e]; [|discriminate].
  cbn [mbind result_bind]. intros [= <-]. exists v. split; [reflexivity|].
  repeat case_decide; reflexivity.
Qed.

Lemma _analyze_slippage_risk_recorded self now order a a' :
  _analyze_slippage_risk self now order a = Ok a' ->
  exists bps,
    calculate_slippage (RiskAnalyzer.volatility_calculator self) now
      (order_notional order) (Order.symbol order) = Ok bps /\
    recorded a' =
      (RiskAnalysis.orderId a, RiskAnalysis.userId a, RiskAnalysis.symbol a,
       RiskAnalysis.volatility a, (bps / 10000)%R).
Proof.
  unfold _analyze_slippage_risk. cbv zeta. fold (order_notional order).
  destruct (calculate_slippage _ _ _ _) as [bps|e]; [|discriminate].
  cbn [mbind result_bind]. intros [= <-]. exists bps. split; [reflexivity|].
  repeat case_decide; reflexivity.
Qed.

Section Scorer.

Context `{codec : Codec}.

(** Where [analyze_order] leaves the analyzer: untouched when the order
    does not parse or a stage before the user's raises; with the user's
    profile stored but not updated when a later stage raises; with the
    profile updated when it returns. *)
Lemma analyze_order_state start_time now order_data self r self' :
  analyze_order start_time now order_data self = (r, self') ->
  (exists e, r = Raise e /\ self' = self) \/
  (exists order e,
     _parse_order_data order_data = Ok order /\ r = Raise e /\
     self' = with_profile self (Order.userId order) now) \/
  (exists order analysis after,
     _parse_order_data order_data = Ok order /\ r = Ok analysis /\
     self' =
       RiskAnalyzer.set_user_analytics
         (<[Order.userId order := after]>
            (RiskAnalyzer.user_analytics
               (with_profile self (Order.userId order) now)))
         (with_profile self (Order.userId order) now) /\
     profile_updated (user_profile self (Order.userId order) now) after now
       order analysis).
Proof.
  unfold analyze_order.
  destruct (_parse_order_data order_data) as [order|e] eqn:Hparse;
    [|intros [= <- <-]; left; eauto].
  rewrite io_bind_lift. cbv zeta. rewrite io_bind_get.
  set (a0 := RiskAnalysis.mk _ _ _ _ _ _ _ _ _ _).
  destruct (_analyze_volatility_risk self now order a0) as [a1|e];
    [|intros [= <- <-]; left; eauto].
  rewrite io_bind_lift.
  destruct (_analyze_slippage_risk self now order a1) as [a2|e];
    [|intros [= <- <-]; left; eauto].
  rewrite io_bind_lift.
  unfold mbind at 1, io_bind at 1. rewrite _analyze_user_behavior_run.
  destruct (score_user_behavior _ now order a2) as [a3|e];
    [|intros [= <- <-]; right; left; eauto].
  rewrite io_bind_get.
  destruct (_analyze_market_conditions _ now order a3) as [a4|e];
    [|intros [= <- <-]; right; left; eauto].
  rewrite io_bind_lift.
  set (final := RiskAnalysis.set_processingTimeMs _ _).
  destruct (_update_user_analytics_run now order final
              (with_profile self (Order.userId order) now) _
              (with_profile_lookup _ _ _)) as (after & Hupd & Hafter).
  rewrite (io_bind_run _ _ _ _ _ Hupd).
  intros [= <- <-]. right; right. exists order, final, after. auto.
Qed.
(** X10.  When [analyze_order] returns, the profile of the order's user
    counts one order more, its volume has grown by the order's notional,
    the order closes its recent orders (cut to the latest 100), its risk
    events count one more exactly when the verdict is not ACCEPT, and its
    last activity is now; the profiles of the other users are as before. *)
Theorem analyze_order_updates_profile start_time now order_data self
    analysis self' :
  analyze_order start_time now order_data self = (Ok analysis, self') ->
  exists order after,
    _parse_order_data order_data = Ok order /\
    get_user_analytics self' (Order.userId order) = Some after /\
    profile_updated (user_profile self (Order.userId order) now) after now
      order analysis /\
    forall other,
      other <> Order.userId order ->
      get_user_analytics self' other = get_user_analytics self other.
Proof.
  intros Hrun. apply analyze_order_state in Hrun
    as [(e & [=] & _)|[(order & e & _ & [=] & _)|
        (order & final & after & Hparse & [= <-] & -> & Hafter)]].
  exists order, after. split; [exact Hparse|].
  unfold get_user_analytics at 1. cbn [RiskAnalyzer.user_analytics
                                      RiskAnalyzer.set_user_analytics].
  rewrite lookup_insert_eq. split; [reflexivity|]. split; [exact Hafter|].
  intros other Hother. unfold get_user_analytics at 1.
  cbn [RiskAnalyzer.user_analytics RiskAnalyzer.set_user_analytics].
  rewrite lookup_insert_ne by congruence.
  fold (get_user_analytics (with_profile self (Order.userId order) now) other).
  rewrite with_profile_get. rewrite decide_False by congruence. reflexivity.
Qed.

(** The market stage divides the largest recent price change by the
    order's price. *)
Lemma _analyze_market_conditions_zero_price self now order a :
  large_movement (RiskAnalyzer.volatility_calculator self) now order ->
  Order.price order = 0%R ->
  _analyze_market_conditions self now order a = Raise ZeroDivisionError.
Proof.
  intros Hm Hzero. unfold _analyze_market_conditions. cbv zeta.
  unfold large_movement, max_recent_change in Hm. cbv zeta in Hm.
  destruct (1 <? length _)%nat; [|destruct Hm].
  destruct (map _ _) as [|c cs]; [destruct Hm|]. cbn in Hm.
  rewrite decide_True by exact Hm.
  rewrite Hzero, truediv_zero. reflexivity.
Qed.

(** A pass that gets through the user-behaviour stage and fails in the
    market stage. *)
Lemma analyze_order_market_raises start_time now order_data self order v p bps :
  let vc := RiskAnalyzer.volatility_calculator self in
  let user_data := user_profile self (Order.userId order) now in
  _parse_order_data order_data = Ok order ->
  get_current_volatility vc now = Ok v ->
  get_volatility_percentile vc now 60 = Ok p ->
  calculate_slippage vc now (order_notional order) (Order.symbol order) = Ok bps ->
  (large_order user_data order -> average_notional user_data <> 0%R) ->
  large_movement vc now order ->
  Order.price order = 0%R ->
  analyze_order start_time now order_data self =
    (Raise ZeroDivisionError, with_profile self (Order.userId order) now).
Proof.
  intros vc user_data Hparse Hv Hp Hbps Havg Hm Hzero.
  unfold analyze_order. rewrite Hparse, io_bind_lift. cbv zeta.
  rewrite io_bind_get.
  set (a0 := RiskAnalysis.mk _ _ _ _ _ _ _ _ _ _).
  destruct (_analyze_volatility_risk_score self now order a0 v p Hv Hp)
    as (a1 & Hrun1 & _).
  rewrite Hrun1, io_bind_lift.
  destruct (_analyze_slippage_risk_score self now order a1 bps Hbps)
    as (a2 & Hrun2 & _).
  rewrite Hrun2, io_bind_lift.
  destruct (score_user_behavior_returns user_data now order a2 Havg)
    as (a3 & Hrun3).
  rewrite (io_bind_run _ _ _ a3 (with_profile self (Order.userId order) now))
    by (rewrite _analyze_user_behavior_run; fold user_data; rewrite Hrun3;
        reflexivity).
  rewrite io_bind_get.
  unfold vc in Hm.
  rewrite <- (with_profile_volatility_calculator self (Order.userId order) now)
    in Hm.
  rewrite (_analyze_market_conditions_zero_price _ _ _ a3 Hm Hzero).
  reflexivity.
Qed.

(** X11.  When [analyze_order] raises, no order is counted: every user's
    profile is as before, except that a user seen for the first time may be
    left with the zeroed profile. *)
Theorem failed_analysis_counts_nothing start_time now order_data self e self' :
  analyze_order start_time now order_data self = (Raise e, self') ->
  forall user_id,
    get_user_analytics self' user_id = get_user_analytics self user_id \/
    (get_user_analytics self user_id = None /\
     get_user_analytics self' user_id = Some (UserData.mk 0 0%R [] 0 now)).
Proof.
  intros Hrun user_id. apply analyze_order_state in Hrun
    as [(e' & _ & ->)|[(order & e' & _ & _ & ->)|
        (order & final & after & _ & [=] & _)]].
  - left. reflexivity.
  - rewrite with_profile_get. case_decide as Hu; [|left; reflexivity].
    subst user_id. unfold user_profile, get_user_analytics.
    destruct (_ !! Order.userId order); [left|right]; auto.
Qed.

Lemma analyze_order_keeps_bounds start_time now order_data self :
  (forall u p, get_user_analytics self u = Some p -> profile_bounds p) ->
  forall u p,
    get_user_analytics (snd (analyze_order start_time now order_data self)) u
      = Some p ->
    profile_bounds p.
Proof.
  intros Hself u p.
  destruct (analyze_order start_time now order_data self) as [r self'] eqn:Hrun.
  cbn [snd].
  assert (forall uid, profile_bounds (user_profile self uid now)) as Hprofile.
  { intros uid. unfold user_profile.
    destruct (RiskAnalyzer.user_analytics self !! uid) as [q|] eqn:E; cbn.
    - apply (Hself uid). exact E.
    - apply zero_profile_bounds. }
  apply analyze_order_state in Hrun
    as [(e' & _ & ->)|[(order & e' & _ & _ & ->)|
        (order & final & after & _ & _ & -> & Hafter)]].
  - apply Hself.
  - rewrite with_profile_get. case_decide; [intros [= <-]; apply Hprofile|].
    apply Hself.
  - unfold get_user_analytics at 1.
    cbn [RiskAnalyzer.user_analytics RiskAnalyzer.set_user_analytics].
    destruct (decide (Order.userId order = u)) as [<-|Hu].
    + rewrite lookup_insert_eq. intros [= <-].
      eapply profile_updated_bounds; [apply Hprofile|exact Hafter].
    + rewrite lookup_insert_ne by exact Hu.
      fold (get_user_analytics (with_profile self (Order.userId order) now) u).
      rewrite with_profile_get, decide_False by exact Hu. apply Hself.
Qed.

Lemma tracker_state_bounds self user_id p :
  tracker_state self ->
  get_user_analytics self user_id = Some p ->
  profile_bounds p.
Proof.
  intros Hself. revert user_id p.
  induction Hself as [vc s|self vc _ IH|self start_time now order_data _ IH].
  - intros u p. unfold get_user_analytics. cbn. rewrite lookup_empty.
    discriminate.
  - exact IH.
  - apply analyze_order_keeps_bounds. exact IH.
Qed.

(** X12.  Through any run of the service, every stored profile keeps at
    most 100 recent orders, never more of them than it counts orders, and
    never more risk events than orders. *)
Theorem tracker_profiles_bounded self user_id p :
  tracker_state self ->
  get_user_analytics self user_id = Some p ->
  profile_bounds p.
Proof. exact (tracker_state_bounds self user_id p). Qed.

(** X13.  Through any run of the service, the user-behaviour stage adds
    0, 5, 15, 25 or 40 points: a first order never comes with a high order
    frequency, since the recent orders are among the counted ones. *)
Theorem tracker_user_points now order analysis self analysis' self' :
  tracker_state self ->
  _analyze_user_behavior now order analysis self = (Ok analysis', self') ->
  In (RiskAnalysis.riskScore analysis' - RiskAnalysis.riskScore analysis)%R
    [0; 5; 15; 25; 40]%R.
Proof.
  intros Hself. rewrite _analyze_user_behavior_run. intros [= Hrun _].
  apply score_user_behavior_score in Hrun. rewrite Hrun.
  assert (profile_bounds (user_profile self (Order.userId order) now))
    as (_ & Hcount & _).
  { unfold user_profile.
    destruct (RiskAnalyzer.user_analytics self !! Order.userId order)
      as [q|] eqn:E; cbn.
    - eapply tracker_state_bounds; [exact Hself|exact E].
    - apply zero_profile_bounds. }
  set (user_data := user_profile self (Order.userId order) now) in *.
  assert (high_frequency user_data now -> ~ first_order user_data) as Hexcl.
  { unfold high_frequency, first_order, trailing_orders. intros Hf Hz.
    pose proof (filter_length_le
                  (fun o => (now - timedelta_minutes 5 <? RecentOrder.timestamp o)%Z)
                  (UserData.recent_orders user_data)). lia. }
  assert (~ (large_order user_data order /\ first_order user_data)) as Hex2
    by (unfold large_order, first_order; lia).
  unfold user_points. cbn [In].
  repeat case_decide; try tauto.
  - right; right; right; right; left. lra.
  - right; right; right; left. lra.
  - right; right; left. lra.
  - right; left. lra.
  - left. lra.
Qed.

(** X14.  An analysis [analyze_order] returns carries the order's id,
    user and symbol, the volatility the engine reported and the slippage
    estimate of the order's notional divided by 10000, whatever the
    stages scored. *)
Theorem analyze_order_records start_time now order_data self analysis self' :
  analyze_order start_time now order_data self = (Ok analysis, self') ->
  exists order v bps,
    let vc := RiskAnalyzer.volatility_calculator self in
    _parse_order_data order_data = Ok order /\
    get_current_volatility vc now = Ok v /\
    calculate_slippage vc now (order_notional order) (Order.symbol order)
      = Ok bps /\
    RiskAnalysis.orderId analysis = Order.orderId order /\
    RiskAnalysis.userId analysis = Order.userId order /\
    RiskAnalysis.symbol analysis = Order.symbol order /\
    RiskAnalysis.volatility analysis = v /\
    RiskAnalysis.slippage analysis = (bps / 10000)%R.
Proof.
  intros Hrun. unfold analyze_order in Hrun.
  apply io_bind_Ok in Hrun as (order & s1 & Hparse & Hrun).
  apply lift_Ok in Hparse as [Hparse ->].
  cbv zeta in Hrun. rewrite io_bind_get in Hrun.
  apply io_bind_Ok in Hrun as (a1 & s1 & H1 & Hrun).
  apply lift_Ok in H1 as [H1 ->].
  apply io_bind_Ok in Hrun as (a2 & s1 & H2 & Hrun).
  apply lift_Ok in H2 as [H2 ->].
  apply io_bind_Ok in Hrun as (a3 & s1 & H3 & Hrun).
  rewrite _analyze_user_behavior_run in H3. injection H3 as H3 <-.
  rewrite io_bind_get in Hrun.
  apply io_bind_Ok in Hrun as (a4 & s1 & H4 & Hrun).
  apply lift_Ok in H4 as [H4 ->].
  apply io_bind_Ok in Hrun as (? & s1 & _ & Hrun).
  injection Hrun as Hfinal _.
  apply _analyze_volatility_risk_recorded in H1 as (v & Hv & R1).
  apply _analyze_slippage_risk_recorded in H2 as (bps & Hbps & R2).
  apply score_user_behavior_recorded in H3 as R3.
  apply _analyze_market_conditions_recorded in H4 as R4.
  assert (recorded analysis =
          (Order.orderId order, Order.userId order, Order.symbol order,
           v, (bps / 10000)%R)) as Hrec.
  { rewrite <- Hfinal.
    change (recorded (RiskAnalysis.set_processingTimeMs _ ?a))
      with (recorded a).
    rewrite _determine_verdict_recorded, R4, R3, R2.
    unfold recorded in R1. injection R1 as -> -> -> -> _. reflexivity. }
  clear Hfinal. unfold recorded in Hrec. injection Hrec as -> -> -> -> ->.
  exists order, v, bps. cbv zeta. auto 12.
Qed.


Lemma analyze_order_bands start_time now order_data self analysis self' :
  analyze_order start_time now order_data self = (Ok analysis, self') ->
  ((RiskAnalysis.riskScore analysis >= 70)%R ->
   RiskAnalysis.verdict analysis = REJECT) /\
  ((30 <= RiskAnalysis.riskScore analysis < 70)%R ->
   RiskAnalysis.verdict analysis = WARN) /\
  ((RiskAnalysis.riskScore analysis < 30)%R ->
   RiskAnalysis.verdict analysis = ACCEPT).
Proof.
  intros Hrun. apply analyze_order_result in Hrun as [scored ->].
  unfold RiskAnalysis.set_processingTimeMs.
  cbn [RiskAnalysis.riskScore RiskAnalysis.verdict].
  rewrite _determine_verdict_riskScore.
  apply _determine_verdict_bands.
Qed.

(** X16.  While the price window holds fewer than 10 points (and the
    volatility thresholds are not negative), no order is rejected: the
    volatility, percentile and slippage stages add nothing, and the score
    stays at 65 or less. *)
Theorem cold_start_never_rejects start_time now order_data self analysis self' :
  let vc := RiskAnalyzer.volatility_calculator self in
  (length (VolatilityCalculator.price_history vc) < 10)%nat ->
  (0 <= Settings.high_volatility_threshold (RiskAnalyzer.settings self))%R ->
  (0 <= Settings.extreme_volatility_threshold (RiskAnalyzer.settings self))%R ->
  analyze_order start_time now order_data self = (Ok analysis, self') ->
  (RiskAnalysis.riskScore analysis <= 65)%R /\
  RiskAnalysis.verdict analysis <> REJECT.
Proof.
  intros vc Hlen Hhigh Hextreme Hrun.
  pose proof (analyze_order_bands _ _ _ _ _ _ Hrun) as (_ & Hwarn & Haccept).
  apply analyze_order_score_sum in Hrun
    as (order & v & p & bps & _ & Hv & Hp & Hbps & Hscore).
  fold vc in Hv, Hp, Hbps, Hscore.
  rewrite (get_current_volatility_cold vc now Hlen) in Hv.
  injection Hv as <-.
  apply get_volatility_percentile_no_blocks_inv in Hp; [subst p|lia].
  rewrite (calculate_slippage_cold vc now _ _ Hlen) in Hbps.
  injection Hbps as <-.
  assert (volatility_points (RiskAnalyzer.settings self) 0 = 0)%R as Hvp
    by (unfold volatility_points; rewrite !decide_False by lra; reflexivity).
  assert (percentile_points 50 = 0)%R as Hpp
    by (unfold percentile_points; rewrite decide_False by lra; reflexivity).
  assert (slippage_points
            (5 + Rmin (order_notional order / 100000) 0.5 + Rmin (0 * 1000) 20
             + (if bool_decide (2 <= hour now <= 6)%Z then 5 else 0)) = 0)%R
    as Hsp.
  { unfold slippage_points.
    pose proof (Rmin_r (order_notional order / 100000) 0.5).
    pose proof (Rmin_l (0 * 1000) 20).
    destruct (bool_decide _); rewrite !decide_False by lra; reflexivity. }
  pose proof (stage_points_ranges (RiskAnalyzer.settings self) 0 50 0
                (user_profile self (Order.userId order) now) vc now order)
    as (_ & _ & _ & Hu & Hm).
  rewrite Hvp, Hpp, Hsp in Hscore.
  assert (RiskAnalysis.riskScore analysis <= 65)%R as Hle by lra.
  split; [exact Hle|].
  destruct (Rlt_le_dec (RiskAnalysis.riskScore analysis) 30) as [Hlt|Hge].
  - rewrite Haccept by exact Hlt. discriminate.
  - rewrite Hwarn by lra. discriminate.
Qed.

(** X17.  Under extreme volatility no order is accepted: the volatility
    stage alone adds the 30 points of the WARN band.  With the extreme
    threshold at 0.02 or more the volatility impact saturates at 20 bps,
    so an order of notional 1 or more also gets the 20 points of a
    slippage estimate above 25 bps: its score is at least 50. *)
Theorem extreme_volatility_never_accepts start_time now order_data self
    analysis self' order v :
  let vc := RiskAnalyzer.volatility_calculator self in
  analyze_order start_time now order_data self = (Ok analysis, self') ->
  _parse_order_data order_data = Ok order ->
  get_current_volatility vc now = Ok v ->
  (v > Settings.extreme_volatility_threshold (RiskAnalyzer.settings self))%R ->
  (30 <= RiskAnalysis.riskScore analysis)%R /\
  RiskAnalysis.verdict analysis <> ACCEPT /\
  ((0.02 <= Settings.extreme_volatility_threshold (RiskAnalyzer.settings self))%R ->
   (1 <= order_notional order)%R ->
   (50 <= RiskAnalysis.riskScore analysis)%R).
Proof.
  intros vc Hrun Hparse Hv Hextreme.
  pose proof (analyze_order_bands _ _ _ _ _ _ Hrun) as (Hreject & Hwarn & _).
  apply analyze_order_score_sum in Hrun
    as (order' & v' & p & bps & Hparse' & Hv' & _ & Hbps & Hscore).
  fold vc in Hv', Hbps, Hscore.
  rewrite Hparse in Hparse'. injection Hparse' as <-.
  rewrite Hv in Hv'. injection Hv' as <-.
  rewrite (calculate_slippage_formula _ _ _ _ _ Hv) in Hbps.
  injection Hbps as <-.
  assert (volatility_points (RiskAnalyzer.settings self) v = 30)%R as Hvp
    by (unfold volatility_points; rewrite decide_True by exact Hextreme;
        reflexivity).
  set (bps := (5 + Rmin (order_notional order / 100000) 0.5 + Rmin (v * 1000) 20
               + (if bool_decide (2 <= hour now <= 6)%Z then 5 else 0))%R) in *.
  pose proof (stage_points_ranges (RiskAnalyzer.settings self) v p bps
                (user_profile self (Order.userId order) now) vc now order)
    as (_ & Hp & Hs & Hu & Hm).
  rewrite Hvp in Hscore.
  assert (30 <= RiskAnalysis.riskScore analysis)%R as Hge by lra.
  split; [exact Hge|]. split.
  - destruct (Rlt_le_dec (RiskAnalysis.riskScore analysis) 70) as [Hlt|Hge70].
    + rewrite Hwarn by lra. discriminate.
    + rewrite Hreject by lra. discriminate.
  - intros Hthreshold Hsize.
    assert (slippage_points bps = 20)%R as Hsp.
    { unfold slippage_points. rewrite decide_True; [reflexivity|].
      unfold bps. rewrite (Rmin_right (v * 1000) 20) by lra.
      assert (0 < Rmin (order_notional order / 100000) 0.5)%R
        by (apply Rmin_glb_lt; lra).
      destruct (bool_decide _); lra. }
    rewrite Hsp in Hscore. lra.
Qed.

(** X18.  An order parsed from the direct fields of a message carries
    them as they are: the five text fields are the mapping's, quantity and
    price are [float] of the mapping's, the timestamp is [fromisoformat]
    of the mapping's; all eight fields must be there. *)
Theorem parse_direct_fields (order_data : gmap string string) order :
  order_data !! "orderData" = None ->
  _parse_order_data order_data = Ok order ->
  order_data !! "orderId" = Some (Order.orderId order) /\
  order_data !! "userId" = Some (Order.userId order) /\
  order_data !! "symbol" = Some (Order.symbol order) /\
  order_data !! "side" = Some (Order.side order) /\
  order_data !! "orderType" = Some (Order.orderType order) /\
  (exists quantity,
     order_data !! "quantity" = Some quantity /\
     float quantity = Ok (Order.quantity order)) /\
  (exists price,
     order_data !! "price" = Some price /\
     float price = Ok (Order.price order)) /\
  (exists timestamp,
     order_data !! "timestamp" = Some timestamp /\
     fromisoformat timestamp = Ok (Order.timestamp order)).
Proof.
  intros Hdirect. unfold _parse_order_data. rewrite Hdirect.
  unfold getitem.
  destruct (order_data !! "orderId") as [orderId|]; [|discriminate].
  destruct (order_data !! "userId") as [userId|]; [|discriminate].
  destruct (order_data !! "symbol") as [symbol|]; [|discriminate].
  destruct (order_data !! "side") as [side|]; [|discriminate].
  destruct (order_data !! "quantity") as [quantity|]; [|discriminate].
  cbn [mbind result_bind].
  destruct (float quantity) as [q|] eqn:Hq; [|discriminate].
  destruct (order_data !! "price") as [price|]; [|discriminate].
  cbn [mbind result_bind].
  destruct (float price) as [p|] eqn:Hp; [|discriminate].
  destruct (order_data !! "orderType") as [orderType|]; [|discriminate].
  destruct (order_data !! "timestamp") as [timestamp|]; [|discriminate].
  cbn [mbind result_bind].
  destruct (fromisoformat timestamp) as [t|] eqn:Ht; [|discriminate].
  intros [= <-]. cbn. eauto 20.
Qed.

End Scorer.

(** X19.  For a user the tracker has not seen, the user-behaviour stage
    adds exactly the 5 points of a first order, with the reason
    [FirstTimeUser] and no other, and stores the zeroed profile for that
    user, leaving the other users alone. *)
Theorem first_order_flagged now order analysis self :
  get_user_analytics self (Order.userId order) = None ->
  exists self',
    _analyze_user_behavior now order analysis self =
      (Ok (add_risk 5 FirstTimeUser analysis), self') /\
    get_user_analytics self' (Order.userId order) =
      Some (UserData.mk 0 0%R [] 0 now) /\
    forall other,
      other <> Order.userId order ->
      get_user_analytics self' other = get_user_analytics self other.
Proof.
  intros Hnew. rewrite _analyze_user_behavior_run.
  exists (with_profile self (Order.userId order) now).
  assert (user_profile self (Order.userId order) now
          = UserData.mk 0 0%R [] 0 now) as Hzero
    by (unfold user_profile; unfold get_user_analytics in Hnew;
        rewrite Hnew; reflexivity).
  split; [rewrite Hzero; reflexivity|].
  split.
  - rewrite with_profile_get, decide_True by reflexivity.
    rewrite Hzero. reflexivity.
  - intros other Hother. rewrite with_profile_get, decide_False by congruence.
    reflexivity.
Qed.

(** * More on the stream consumer *)

Lemma store_outcome_fails client key data :
  Redis.fails (store_outcome client key data) = Redis.fails client.
Proof. unfold store_outcome. repeat destruct (Redis.fails client _); reflexivity. Qed.

Lemma server_grows_refl client : server_grows client client.
Proof. unfold server_grows. auto. Qed.

Lemma server_grows_trans a b c :
  server_grows a b -> server_grows b c -> server_grows a c.
Proof.
  intros (Hp1 & Hh1 & Hf1) (Hp2 & Hh2 & Hf2). unfold server_grows.
  split; [set_solver|]. split; [auto|congruence].
Qed.

Lemma store_outcome_grows client key data :
  server_grows client (store_outcome client key data) /\
  Redis.pending (store_outcome client key data) = Redis.pending client.
Proof.
  unfold store_outcome, server_grows.
  destruct (Redis.fails client (HSET key)); [auto|].
  assert (forall k, is_Some (Redis.hashes client !! k) ->
                    is_Some (<[key := data]> (Redis.hashes client) !! k)) as Hk.
  { intros k Hsome. destruct (decide (key = k)) as [<-|Hne].
    - rewrite lookup_insert_eq. eauto.
    - rewrite lookup_insert_ne by exact Hne. exact Hsome. }
  destruct (Redis.fails client (EXPIRE key)); cbn; auto.
Qed.

Lemma ack_outcome_grows client msg_id :
  server_grows client (ack_outcome client msg_id) /\
  Redis.pending client ∖ {[msg_id]} ⊆ Redis.pending (ack_outcome client msg_id).
Proof.
  unfold ack_outcome, server_grows.
  destruct (Redis.fails client _); cbn.
  - split; [split; [reflexivity|auto]|].
    apply subseteq_difference_l. reflexivity.
  - split; [split; [|auto]|reflexivity].
    apply subseteq_difference_l. reflexivity.
Qed.

Section Consumer.

Context `{codec : Codec}.

(** One entry whose analysis returns. *)
Lemma process_entries_returns start_time now msg_id fields ra rc run
    analysis ra' :
  analyze_order start_time now fields ra = (Ok analysis, ra') ->
  process_entries start_time now [(msg_id, fields)] (RedisConsumer.mk ra rc run)
  = (Ok tt,
     RedisConsumer.mk ra'
       (ack_outcome
          (store_outcome rc (analysis_key analysis)
             (analysis_data msg_id analysis)) msg_id) run).
Proof.
  intros Hrun.
  unfold ack_outcome. rewrite store_outcome_fails. unfold store_outcome.
  unfold process_entries, _process_single_message, _store_analysis_result,
    try_except, on_risk_analyzer, on_redis_client, hset, expire, xack,
    mbind, io_bind.
  cbn [RedisConsumer.risk_analyzer RedisConsumer.redis_client
       RedisConsumer.running].
  rewrite Hrun. fold (analysis_key analysis). fold (analysis_data msg_id analysis).
  cbn [RedisConsumer.risk_analyzer RedisConsumer.redis_client
       RedisConsumer.running].
  destruct (Redis.fails rc (HSET (analysis_key analysis))) eqn:Hh;
    cbn [mret io_ret RedisConsumer.risk_analyzer RedisConsumer.redis_client
         RedisConsumer.running Redis.fails Redis.hashes Redis.expires
         Redis.pending].
  - destruct (Redis.fails rc (XACK stream_name consumer_group msg_id));
      reflexivity.
  - destruct (Redis.fails rc (EXPIRE (analysis_key analysis))) eqn:He;
      cbn [mret io_ret RedisConsumer.risk_analyzer RedisConsumer.redis_client
           RedisConsumer.running Redis.fails Redis.hashes Redis.expires
           Redis.pending];
      destruct (Redis.fails rc (XACK stream_name consumer_group msg_id));
      reflexivity.
Qed.
Lemma process_entry_step start_time now msg_id fields self :
  exists self',
    process_entries start_time now [(msg_id, fields)] self = (Ok tt, self') /\
    server_grows (RedisConsumer.redis_client self)
      (RedisConsumer.redis_client self') /\
    Redis.pending (RedisConsumer.redis_client self) ∖ {[msg_id]}
      ⊆ Redis.pending (RedisConsumer.redis_client self') /\
    RedisConsumer.running self' = RedisConsumer.running self.
Proof.
  destruct self as [ra rc run].
  destruct (analyze_order start_time now fields ra) as [[analysis|e] ra'] eqn:Hrun.
  - eexists. split; [apply (process_entries_returns _ _ _ _ _ _ _ _ _ Hrun)|].
    cbn [RedisConsumer.redis_client RedisConsumer.running].
    pose proof (store_outcome_grows rc (analysis_key analysis)
                  (analysis_data msg_id analysis)) as [Hs Hsp].
    pose proof (ack_outcome_grows
                  (store_outcome rc (analysis_key analysis)
                     (analysis_data msg_id analysis)) msg_id) as [Ha Hap].
    split; [eapply server_grows_trans; eassumption|].
    split; [rewrite <- Hsp; exact Hap|reflexivity].
  - eexists. split; [apply (process_entries_analysis_raises _ _ _ _ _ _ _ _ _ Hrun)|].
    cbn [RedisConsumer.redis_client RedisConsumer.running].
    split; [apply server_grows_refl|].
    split; [apply subseteq_difference_l; reflexivity|reflexivity].
Qed.

Lemma process_entries_cons start_time now msg_id fields msgs self self1 :
  process_entries start_time now [(msg_id, fields)] self = (Ok tt, self1) ->
  process_entries start_time now ((msg_id, fields) :: msgs) self =
  process_entries start_time now msgs self1.
Proof.
  cbn [process_entries]. unfold mbind, io_bind.
  destruct (try_except _ _ self) as [[[]|e] s]; [|discriminate].
  intros [= <-]. reflexivity.
Qed.

Lemma process_entries_grows start_time now msgs : forall self,
  exists self',
    process_entries start_time now msgs self = (Ok tt, self') /\
    server_grows (RedisConsumer.redis_client self)
      (RedisConsumer.redis_client self') /\
    (forall id, id ∈ Redis.pending (RedisConsumer.redis_client self) ->
                ~ In id (map fst msgs) ->
                id ∈ Redis.pending (RedisConsumer.redis_client self')) /\
    RedisConsumer.running self' = RedisConsumer.running self.
Proof.
  induction msgs as [|[msg_id fields] msgs IH]; intros self.
  - exists self. split; [reflexivity|]. split; [apply server_grows_refl|]. auto.
  - destruct (process_entry_step start_time now msg_id fields self)
      as (self1 & Hone & Hg1 & Hp1 & Hr1).
    destruct (IH self1) as (self' & Hrest & Hg & Hp & Hr).
    exists self'. rewrite (process_entries_cons _ _ _ _ _ _ _ Hone).
    split; [exact Hrest|]. split; [eapply server_grows_trans; eassumption|].
    split; [|congruence].
    intros id Hin Hout. cbn [map fst In] in Hout.
    apply Hp; [|tauto]. apply Hp1. set_solver.
Qed.

Lemma _process_messages_grows start_time now messages : forall self,
  exists self',
    _process_messages start_time now messages self = (Ok tt, self') /\
    server_grows (RedisConsumer.redis_client self)
      (RedisConsumer.redis_client self') /\
    (forall id, id ∈ Redis.pending (RedisConsumer.redis_client self) ->
                ~ In id (batch_ids messages) ->
                id ∈ Redis.pending (RedisConsumer.redis_client self')) /\
    RedisConsumer.running self' = RedisConsumer.running self.
Proof.
  induction messages as [|[stream msgs] messages IH]; intros self.
  - exists self. split; [reflexivity|]. split; [apply server_grows_refl|]. auto.
  - destruct (process_entries_grows start_time now msgs self)
      as (self1 & Hone & Hg1 & Hp1 & Hr1).
    destruct (IH self1) as (self' & Hrest & Hg & Hp & Hr).
    exists self'. cbn [_process_messages].
    rewrite (io_bind_run _ _ _ _ _ Hone).
    split; [exact Hrest|]. split; [eapply server_grows_trans; eassumption|].
    split; [|congruence].
    intros id Hin Hout. unfold batch_ids in Hout. cbn [map concat] in Hout.
    rewrite in_app_iff in Hout.
    apply Hp; [|unfold batch_ids; tauto]. apply Hp1; tauto.
Qed.

(** X21.  [_process_messages] acknowledges nothing outside its batch and
    deletes no stored result: the pending entries only shrink, an entry
    that is not in the batch stays pending, and every key stored before is
    stored after. *)
Theorem process_messages_only_acknowledges_its_batch start_time now messages
    self :
  let before := RedisConsumer.redis_client self in
  let after :=
    RedisConsumer.redis_client
      (snd (_process_messages start_time now messages self)) in
  Redis.pending after ⊆ Redis.pending before /\
  (forall id, id ∈ Redis.pending before -> ~ In id (batch_ids messages) ->
              id ∈ Redis.pending after) /\
  (forall key, is_Some (Redis.hashes before !! key) ->
               is_Some (Redis.hashes after !! key)).
Proof.
  cbv zeta.
  destruct (_process_messages_grows start_time now messages self)
    as (self' & -> & (Hp & Hh & _) & Hkeep & _).
  cbn [snd]. auto.
Qed.

(** X22.  When the analysis returns and the server answers, the message
    is acknowledged and [get_analysis_result] on the order's id reads back
    the analysis with the message id, stored with a day to live. *)
Theorem processed_message_is_stored_and_acknowledged start_time now msg_id
    fields ra rc run analysis ra' :
  analyze_order start_time now fields ra = (Ok analysis, ra') ->
  (forall command, Redis.fails rc command = false) ->
  exists rc',
    _process_messages start_time now [(stream_name, [(msg_id, fields)])]
      (RedisConsumer.mk ra rc run)
    = (Ok tt, RedisConsumer.mk ra' rc' run) /\
    get_analysis_result (Some rc') false (RiskAnalysis.orderId analysis)
      = Some (Some (analysis_data msg_id analysis)) /\
    Redis.expires rc' !! analysis_key analysis = Some 86400%Z /\
    Redis.pending rc' = Redis.pending rc ∖ {[msg_id]}.
Proof.
  intros Hrun Hok. eexists.
  split.
  - cbn [_process_messages].
    rewrite (io_bind_run _ _ _ _ _ (process_entries_returns _ _ _ _ _ _ _ _ _ Hrun)).
    reflexivity.
  - unfold ack_outcome. rewrite store_outcome_fails. unfold store_outcome.
    rewrite !Hok. unfold get_analysis_result. cbn.
    fold (analysis_key analysis). rewrite !lookup_insert_eq. auto.
Qed.

(** X23.  When the analysis of a message raises, the server is left as
    it was: nothing is stored and the message stays pending. *)
Theorem failed_message_stays_pending start_time now msg_id fields self e ra' :
  analyze_order start_time now fields (RedisConsumer.risk_analyzer self)
    = (Raise e, ra') ->
  _process_messages start_time now [(stream_name, [(msg_id, fields)])] self
  = (Ok tt,
     RedisConsumer.mk ra' (RedisConsumer.redis_client self)
       (RedisConsumer.running self)).
Proof.
  intros Hrun. destruct self as [ra rc run].
  cbn [RedisConsumer.risk_analyzer RedisConsumer.redis_client
       RedisConsumer.running] in *.
  cbn [_process_messages].
  rewrite (io_bind_run _ _ _ _ _
             (process_entries_analysis_raises _ _ _ _ _ _ _ _ _ Hrun)).
  reflexivity.
Qed.

(** X24.  When the result is stored and the acknowledgement fails, the
    result stays stored and the pending entries are left as they were:
    nothing is acknowledged. *)
Theorem unacknowledged_result_is_stored start_time now msg_id fields ra rc run
    analysis ra' :
  analyze_order start_time now fields ra = (Ok analysis, ra') ->
  Redis.fails rc (HSET (analysis_key analysis)) = false ->
  Redis.fails rc (XACK stream_name consumer_group msg_id) = true ->
  exists rc',
    _process_messages start_time now [(stream_name, [(msg_id, fields)])]
      (RedisConsumer.mk ra rc run)
    = (Ok tt, RedisConsumer.mk ra' rc' run) /\
    Redis.hashes rc' !! analysis_key analysis
      = Some (analysis_data msg_id analysis) /\
    Redis.pending rc' = Redis.pending rc.
Proof.
  intros Hrun Hh Hx. eexists.
  split.
  - cbn [_process_messages].
    rewrite (io_bind_run _ _ _ _ _ (process_entries_returns _ _ _ _ _ _ _ _ _ Hrun)).
    reflexivity.
  - unfold ack_outcome. rewrite store_outcome_fails, Hx. unfold store_outcome.
    rewrite Hh. destruct (Redis.fails rc (EXPIRE _)); cbn;
      rewrite lookup_insert_eq; auto.
Qed.

(** X25.  When [HSET] succeeds and [EXPIRE] fails, the result is stored
    with no expiry set for it, and the message is acknowledged all the
    same. *)
Theorem expire_failure_keeps_result_forever start_time now msg_id fields ra rc
    run analysis ra' :
  analyze_order start_time now fields ra = (Ok analysis, ra') ->
  Redis.fails rc (HSET (analysis_key analysis)) = false ->
  Redis.fails rc (EXPIRE (analysis_key analysis)) = true ->
  Redis.fails rc (XACK stream_name consumer_group msg_id) = false ->
  exists rc',
    _process_messages start_time now [(stream_name, [(msg_id, fields)])]
      (RedisConsumer.mk ra rc run)
    = (Ok tt, RedisConsumer.mk ra' rc' run) /\
    Redis.hashes rc' !! analysis_key analysis
      = Some (analysis_data msg_id analysis) /\
    Redis.expires rc' = Redis.expires rc /\
    Redis.pending rc' = Redis.pending rc ∖ {[msg_id]}.
Proof.
  intros Hrun Hh He Hx. eexists.
  split.
  - cbn [_process_messages].
    rewrite (io_bind_run _ _ _ _ _ (process_entries_returns _ _ _ _ _ _ _ _ _ Hrun)).
    reflexivity.
  - unfold ack_outcome. rewrite store_outcome_fails, Hx. unfold store_outcome.
    rewrite Hh, He. cbn. rewrite lookup_insert_eq. auto.
Qed.
End Consumer.

(** * The examples worked out *)

#[local] Existing Instance example_codec.

(** ** The engine before its first tick *)

Lemma get_current_volatility_cold_start_witness :
  get_current_volatility cold_engine wednesday_noon = Ok 0%R.
Proof.
  apply get_current_volatility_cold_start. left. cbn. lia.
Defined.



(** C6.  On a notional of 1000000, with no volatility and at noon,
    [calculate_slippage] returns 5.5 bps: the size impact stops at 0.5,
    where the comment next to it and the design text put the cap at
    50 bps, which gives 5 + 10 = 15 bps. *)
Theorem calculate_slippage_size_cap :
  calculate_slippage cold_engine wednesday_noon 1000000 "BTC-USD" = Ok 5.5%R /\
  get_current_volatility cold_engine wednesday_noon = Ok 0%R /\
  hour wednesday_noon = 12%Z /\
  slippage_as_specified 1000000 0 12 = 15%R.
Proof.
  split; [|split; [|split]].
  - rewrite calculate_slippage_cold by (cbn; lia).
    rewrite Rmin_right by lra. rewrite Rmin_left by lra.
    change (bool_decide (2 <= hour wednesday_noon <= 6)%Z) with false.
    f_equal. lra.
  - reflexivity.
  - reflexivity.
  - unfold slippage_as_specified.
    rewrite Rmin_left by lra. rewrite Rmin_left by lra.
    change (bool_decide (2 <= 12 <= 6)%Z) with false.
    lra.
Qed.

Lemma calculate_slippage_bounds_witness :
  exists size_impact volatility_impact time_impact : R,
    calculate_slippage cold_engine wednesday_noon 1000 "BTC-USD" =
      Ok (5 + size_impact + volatility_impact + time_impact)%R /\
    (0 <= size_impact <= 0.5)%R /\
    (0 <= volatility_impact <= 20)%R /\
    (0 <= time_impact <= 5)%R /\
    (5 <= 5 + size_impact + volatility_impact + time_impact <= 30.5)%R.
Proof.
  apply (calculate_slippage_bounds cold_engine wednesday_noon 1000 "BTC-USD").
  - apply engine_init.
  - lra.
Defined.

(** ** The swinging engine *)

Lemma swing_qualifying :
  get_price_history (swing_engine saturday_evening) saturday_evening 1 =
  [PricePoint.mk 1000 (saturday_evening - 2 * 25000000)%Z 0;
   PricePoint.mk 2000 (saturday_evening - 25000000)%Z 1000;
   PricePoint.mk 1000 saturday_evening (-1000)].
Proof. reflexivity. Qed.

Lemma np_std_swing :
  np_std [((2000 - 1000) / 1000)%R; ((1000 - 2000) / 2000)%R] = 0.75%R.
Proof.
  unfold np_std, np_mean. cbn [map length Rsum foldr INR].
  match goal with |- sqrt ?x = _ => replace x with (0.75 * 0.75)%R end.
  - apply sqrt_square; lra.
  - rewrite <- !Rsqr_pow2, <- !Rsqr_abs. unfold Rsqr. lra.
Qed.

Lemma sample_std_swing :
  sample_std [((2000 - 1000) / 1000)%R; ((1000 - 2000) / 2000)%R] = sqrt (9 / 8).
Proof.
  unfold sample_std, np_mean. cbn [map length Rsum foldr INR].
  f_equal. lra.
Qed.

Lemma swing_volatility :
  get_current_volatility (swing_engine saturday_evening) saturday_evening =
  Ok swing_volatility_value.
Proof.
  rewrite get_current_volatility_warm.
  - change (volatility_window (swing_engine saturday_evening)) with 1%Z.
    rewrite swing_qualifying.
    cbn [consecutive_returns PricePoint.price].
    rewrite np_std_swing. reflexivity.
  - cbn. lia.
  - change (volatility_window (swing_engine saturday_evening)) with 1%Z.
    rewrite swing_qualifying. cbn. lia.
  - change (volatility_window (swing_engine saturday_evening)) with 1%Z.
    rewrite swing_qualifying. repeat constructor; cbn; lra.
Qed.

Lemma swing_volatility_value_large : (0.75 <= swing_volatility_value)%R.
Proof.
  unfold swing_volatility_value.
  assert (1 <= sqrt (365 * 24 * 60))%R.
  { rewrite <- sqrt_1 at 1. apply sqrt_le_1; lra. }
  lra.
Qed.

Lemma get_current_volatility_population_std_witness :
  get_current_volatility (swing_engine saturday_evening) saturday_evening =
  Ok (sqrt (np_mean (map (fun r =>
              (Rabs (r - np_mean (consecutive_returns
                                    (get_price_history
                                       (swing_engine saturday_evening)
                                       saturday_evening 1))) ^ 2)%R)
            (consecutive_returns
               (get_price_history (swing_engine saturday_evening)
                  saturday_evening 1))))
      * sqrt (365 * 24 * 60))%R.
Proof.
  apply (get_current_volatility_population_std (swing_engine saturday_evening)
           saturday_evening).
  - cbn. lia.
  - change (volatility_window (swing_engine saturday_evening)) with 1%Z.
    rewrite swing_qualifying. cbn. lia.
  - change (volatility_window (swing_engine saturday_evening)) with 1%Z.
    rewrite swing_qualifying. repeat constructor; cbn; lra.
Defined.

(** C8, as stated, fails: on the swinging engine the two returns are 1
    and -1/2; the estimate is [0.75 * sqrt(365*24*60)], their population
    deviation, where the sample standard deviation is [sqrt(9/8)]. *)
Lemma get_current_volatility_not_sample_std :
  let self := swing_engine saturday_evening in
  let qualifying :=
    get_price_history self saturday_evening (volatility_window self) in
  (10 <= length (VolatilityCalculator.price_history self))%nat /\
  (2 <= length qualifying)%nat /\
  get_current_volatility self saturday_evening <>
    Ok (sample_std (consecutive_returns qualifying) * sqrt (365 * 24 * 60))%R.
Proof.
  cbv zeta.
  change (volatility_window (swing_engine saturday_evening)) with 1%Z.
  rewrite swing_qualifying, swing_volatility.
  split; [cbn; lia|]. split; [cbn; lia|].
  cbn [consecutive_returns PricePoint.price]. rewrite sample_std_swing.
  unfold swing_volatility_value. intros [= H].
  apply Rmult_eq_reg_r in H; [|pose proof sqrt_minutes_per_year_pos; lra].
  assert (sqrt (9 / 8) * sqrt (9 / 8) = 9 / 8)%R as Hs by (apply sqrt_sqrt; lra).
  rewrite <- H in Hs. lra.
Qed.

(** ** A busy user's order on a Saturday evening *)

Lemma example_fields_parse : _parse_order_data example_fields = Ok example_order.
Proof. reflexivity. Qed.

Lemma wrapped_fields_parse :
  _parse_order_data wrapped_fields = Raise ValidationError /\
  _parse_order_data (delete "orderData" wrapped_fields) = Ok example_order.
Proof. split; reflexivity. Qed.

Lemma parse_order_data_payload_only_witness :
  _parse_order_data wrapped_fields = (json_loads "{}" ≫= Order_kwargs) /\
  forall other : gmap string string,
    other !! "orderData" = Some "{}" ->
    _parse_order_data other = _parse_order_data wrapped_fields.
Proof.
  apply (parse_order_data_payload_only wrapped_fields "{}").
  reflexivity.
Defined.

Lemma swing_percentile :
  get_volatility_percentile (swing_engine saturday_evening) saturday_evening 60 =
  Ok 50%R.
Proof.
  unfold get_volatility_percentile. cbv zeta.
  rewrite swing_volatility. reflexivity.
Qed.

Lemma swing_slippage :
  calculate_slippage (swing_engine saturday_evening) saturday_evening
    (order_notional example_order) "BTC-USD" =
  Ok 25.02%R.
Proof.
  rewrite (calculate_slippage_formula _ _ _ _ _ swing_volatility).
  pose proof swing_volatility_value_large.
  unfold order_notional. cbn [example_order Order.quantity Order.price].
  rewrite Rmin_left by lra. rewrite Rmin_right by lra.
  change (bool_decide (2 <= hour saturday_evening <= 6)%Z) with false.
  f_equal. lra.
Qed.

Lemma busy_user_points :
  user_points (busy_profile saturday_evening) saturday_evening example_order
  = 40%R.
Proof.
  unfold user_points.
  rewrite (decide_True (P := high_frequency _ _))
    by (unfold high_frequency; vm_compute; lia).
  rewrite (decide_True (P := large_order _ _))
    by (unfold large_order, average_notional, order_notional; cbn;
        split; [lia|lra]).
  rewrite (decide_False (P := first_order _))
    by (unfold first_order; cbn; lia).
  lra.
Qed.

Lemma swing_max_recent_change :
  max_recent_change (swing_engine saturday_evening) saturday_evening =
  Some (py_max (Rabs 0)
          (repeat (Rabs 0) 7 ++ [Rabs 1000; Rabs (-1000)])).
Proof. reflexivity. Qed.

Lemma swing_market_points :
  market_points (swing_engine saturday_evening) saturday_evening example_order
  = 25%R.
Proof.
  unfold market_points.
  rewrite (decide_True (P := off_hours _)) by (right; reflexivity).
  rewrite (decide_True (P := weekend _)) by (apply Z.leb_le; reflexivity).
  rewrite (decide_True (P := large_movement _ _ _)).
  - lra.
  - unfold large_movement. rewrite swing_max_recent_change.
    cbn [exceeds_half_percent py_max fold_left repeat app example_order
         Order.price].
    eapply Rlt_le_trans; [|apply Rmax_r].
    rewrite Rabs_left by lra. lra.
Qed.

(** The pass on the busy user's order: extreme volatility 30, slippage 20,
    frequency 25, large order 15, evening 5, Saturday 10, price swing 10. *)
Lemma busy_run start_time :
  exists analysis self',
    analyze_order start_time saturday_evening example_fields
      (busy_analyzer saturday_evening) = (Ok analysis, self') /\
    RiskAnalysis.orderId analysis = "order-1" /\
    RiskAnalysis.riskScore analysis = 115%R.
Proof.
  destruct (analyze_order_score start_time saturday_evening example_fields
              (busy_analyzer saturday_evening) example_order
              swing_volatility_value 50 25.02
              example_fields_parse swing_volatility swing_percentile
              swing_slippage) as (analysis & self' & Hrun & Hid & Hscore).
  - intros _.
    change (average_notional (busy_profile saturday_evening) <> 0%R).
    unfold average_notional.
    cbn [busy_profile UserData.total_volume UserData.total_orders].
    apply Rgt_not_eq. lra.
  - intros _. cbn [example_order Order.price]. apply Rgt_not_eq. lra.
  - exists analysis, self'. split; [exact Hrun|]. split; [exact Hid|].
    rewrite Hscore.
    change (user_profile (busy_analyzer saturday_evening)
              (Order.userId example_order) saturday_evening)
      with (busy_profile saturday_evening).
    change (RiskAnalyzer.volatility_calculator (busy_analyzer saturday_evening))
      with (swing_engine saturday_evening).
    rewrite busy_user_points, swing_market_points.
    unfold volatility_points, percentile_points, slippage_points.
    pose proof swing_volatility_value_large.
    cbn [busy_analyzer RiskAnalyzer.settings default_settings
         Settings.extreme_volatility_threshold].
    rewrite (decide_True (P := (swing_volatility_value > _)%R)) by lra.
    rewrite (decide_False (P := (50 > 90)%R)) by lra.
    rewrite (decide_True (P := (25.02 > 25)%R)) by lra.
    lra.
Qed.

Lemma analyze_order_verdict_witness :
  exists analysis self',
    analyze_order saturday_evening saturday_evening example_fields
      (busy_analyzer saturday_evening) = (Ok analysis, self') /\
    ((RiskAnalysis.riskScore analysis >= 70)%R ->
       RiskAnalysis.verdict analysis = REJECT) /\
    ((30 <= RiskAnalysis.riskScore analysis < 70)%R ->
       RiskAnalysis.verdict analysis = WARN) /\
    ((RiskAnalysis.riskScore analysis < 30)%R ->
       RiskAnalysis.verdict analysis = ACCEPT).
Proof.
  destruct (busy_run saturday_evening) as (analysis & self' & Hrun & _ & _).
  exists analysis, self'. split; [exact Hrun|].
  exact (analyze_order_verdict saturday_evening saturday_evening example_fields
           (busy_analyzer saturday_evening) analysis self' Hrun).
Defined.

(** C4.  The busy user's order comes back with a risk score of 115 and
    the verdict REJECT: the points are added up and nothing brings the sum
    back under the bound of 100 that [RiskAnalysis] declares for
    [riskScore]. *)
Theorem analyze_order_score_above_100 :
  exists analysis self',
    analyze_order (saturday_evening - 3000)%Z saturday_evening example_fields
      (busy_analyzer saturday_evening) = (Ok analysis, self') /\
    RiskAnalysis.riskScore analysis = 115%R /\
    RiskAnalysis.verdict analysis = REJECT /\
    ~ (0 <= RiskAnalysis.riskScore analysis <= 100)%R.
Proof.
  destruct (busy_run (saturday_evening - 3000)%Z)
    as (analysis & self' & Hrun & _ & Hscore).
  exists analysis, self'. split; [exact Hrun|]. split; [exact Hscore|].
  split; [|lra].
  apply analyze_order_result in Hrun as [scored ->].
  unfold RiskAnalysis.set_processingTimeMs in *.
  cbn [RiskAnalysis.riskScore RiskAnalysis.verdict] in *.
  rewrite _determine_verdict_riskScore in Hscore.
  apply _determine_verdict_bands. lra.
Qed.

Lemma analyze_user_behavior_conditions_witness :
  exists analysis' self',
    let analysis :=
      RiskAnalysis.mk "order-1" "user-1" "BTC-USD" 50 ACCEPT 0 0 [] 0
        saturday_evening in
    let user_data := busy_profile saturday_evening in
    _analyze_user_behavior saturday_evening example_order analysis
      (busy_analyzer saturday_evening) = (Ok analysis', self') /\
    RiskAnalysis.riskScore analysis' =
      (50
       + (if decide (high_frequency user_data saturday_evening) then 25 else 0)
       + (if decide (large_order user_data example_order) then 15 else 0)
       + (if decide (first_order user_data) then 5 else 0))%R /\
    ~ (large_order user_data example_order /\ first_order user_data) /\
    (RiskAnalysis.riskScore analysis' <= 50 + 40)%R.
Proof.
  destruct (score_user_behavior_returns (busy_profile saturday_evening)
              saturday_evening example_order
              (RiskAnalysis.mk "order-1" "user-1" "BTC-USD" 50 ACCEPT 0 0 [] 0
                 saturday_evening)) as [analysis' Hscore].
  - intros _. unfold average_notional.
    cbn [busy_profile UserData.total_volume UserData.total_orders].
    apply Rgt_not_eq. lra.
  - exists analysis', (with_profile (busy_analyzer saturday_evening)
                         (Order.userId example_order) saturday_evening).
    cbv zeta.
    assert (_analyze_user_behavior saturday_evening example_order
              (RiskAnalysis.mk "order-1" "user-1" "BTC-USD" 50 ACCEPT 0 0 [] 0
                 saturday_evening) (busy_analyzer saturday_evening)
            = (Ok analysis',
               with_profile (busy_analyzer saturday_evening)
                 (Order.userId example_order) saturday_evening)) as Hrun
      by (rewrite _analyze_user_behavior_run; f_equal; exact Hscore).
    split; [exact Hrun|].
    exact (analyze_user_behavior_conditions _ _ _ _ _ _ Hrun).
Defined.

(** C5, as stated, fails: no profile and order make the stage add
    25 + 15 + 5. *)
Lemma analyze_user_behavior_never_all_three :
  ~ exists now order analysis self analysis' self',
      _analyze_user_behavior now order analysis self = (Ok analysis', self') /\
      RiskAnalysis.riskScore analysis' =
        (RiskAnalysis.riskScore analysis + 25 + 15 + 5)%R.
Proof.
  intros (now & order & analysis & self & analysis' & self' & Hrun & Hscore).
  rewrite _analyze_user_behavior_run in Hrun. injection Hrun as Hrun _.
  apply score_user_behavior_score in Hrun. unfold user_points in Hrun.
  rewrite Hrun in Hscore. clear Hrun.
  repeat case_decide; try lra.
  unfold large_order, first_order in *. lia.
Qed.

(** ** The consumer with its store down *)

(** C2.  The busy user's order is delivered while [HSET] fails.  The
    analysis returns, nothing is stored under [analysis:order-1], and the
    message still leaves the pending entries: [_store_analysis_result]
    logs the error without raising it, so [_process_messages] goes on to
    acknowledge. *)
Theorem process_messages_acknowledges_unstored :
  exists analysis self',
    fst (analyze_order (saturday_evening - 3000)%Z saturday_evening
           example_fields (RedisConsumer.risk_analyzer example_consumer))
      = Ok analysis /\
    analysis_key analysis = "analysis:order-1" /\
    Redis.fails (RedisConsumer.redis_client example_consumer)
      (HSET "analysis:order-1") = true /\
    _process_messages (saturday_evening - 3000)%Z saturday_evening
      [(stream_name, [(example_msg_id, example_fields)])] example_consumer
      = (Ok tt, self') /\
    Redis.hashes (RedisConsumer.redis_client self') !! "analysis:order-1"
      = None /\
    example_msg_id ∈ Redis.pending (RedisConsumer.redis_client example_consumer) /\
    example_msg_id ∉ Redis.pending (RedisConsumer.redis_client self').
Proof.
  destruct (busy_run (saturday_evening - 3000)%Z)
    as (analysis & ra' & Hrun & Hid & _).
  assert (analysis_key analysis = "analysis:order-1") as Hkey
    by (unfold analysis_key; rewrite Hid; reflexivity).
  pose proof (process_entries_hset_fails _ _ example_msg_id _ _
                (Redis.mk ∅ ∅ {[ example_msg_id ]} hset_down) true _ _
                Hrun eq_refl eq_refl) as Hentries.
  exists analysis. eexists.
  split; [cbn [example_consumer RedisConsumer.risk_analyzer]; rewrite Hrun;
          reflexivity|].
  split; [exact Hkey|]. split; [reflexivity|].
  split.
  - unfold _process_messages, example_consumer.
    rewrite (io_bind_run _ _ _ _ _ Hentries). reflexivity.
  - cbn [RedisConsumer.redis_client Redis.hashes Redis.pending example_consumer].
    split; [apply lookup_empty|].
    split; [apply elem_of_singleton; reflexivity|].
    intros Hin. apply elem_of_difference in Hin as [_ Hout].
    apply Hout, elem_of_singleton. reflexivity.
Qed.

(** ** More examples: the engine *)

Lemma Rpos_neq_0 x : (0 < x)%R -> x <> 0%R.
Proof. intros Hx. apply Rgt_not_eq. exact Hx. Qed.

Lemma volatility_never_negative_witness : (0 <= swing_volatility_value)%R.
Proof.
  exact (volatility_never_negative (swing_engine saturday_evening)
           saturday_evening swing_volatility_value swing_volatility).
Defined.

Lemma flat_prices_zero_volatility_witness :
  get_current_volatility (flat_engine saturday_evening) saturday_evening
  = Ok 0%R.
Proof.
  apply (flat_prices_zero_volatility (flat_engine saturday_evening)
           saturday_evening 1000).
  - apply Rpos_neq_0. lra.
  - apply filter_Forall. cbn [flat_engine VolatilityCalculator.price_history map].
    repeat constructor.
Defined.

Lemma engine_percentile_in_range_witness :
  (exists p,
     get_volatility_percentile cold_engine wednesday_noon 60 = Ok p /\
     (0 <= p <= 100)%R) /\
  get_volatility_percentile cold_engine wednesday_noon 2000000000
  = Raise OverflowError.
Proof.
  split.
  - exact (engine_percentile_in_range cold_engine wednesday_noon 60
             (engine_init default_settings wednesday_noon)).
  - exact (engine_percentile_in_range cold_engine wednesday_noon 2000000000
             (engine_init default_settings wednesday_noon)).
Defined.

Lemma percentile_neutral_without_blocks_witness :
  get_volatility_percentile (swing_engine saturday_evening) saturday_evening 60
  = Ok 50%R.
Proof.
  apply (percentile_neutral_without_blocks (swing_engine saturday_evening)
           saturday_evening 60 swing_volatility_value
           (saturday_evening - 3600000000)%Z).
  - cbn. lia.
  - exact swing_volatility.
  - reflexivity.
Defined.

(** ** More examples: the scorer *)

(** The first order of a user, on the engine before its first tick. *)
Lemma fresh_run start_time :
  exists analysis self' after,
    analyze_order start_time wednesday_noon example_fields fresh_analyzer
      = (Ok analysis, self') /\
    get_user_analytics self' "user-1" = Some after.
Proof.
  destruct (analyze_order_score start_time wednesday_noon example_fields
              fresh_analyzer example_order 0 50
              (5 + Rmin (order_notional example_order / 100000) 0.5
               + Rmin (0 * 1000) 20
               + (if bool_decide (2 <= hour wednesday_noon <= 6)%Z
                  then 5 else 0))%R
              example_fields_parse eq_refl eq_refl)
    as (analysis & self' & Hrun & _ & _).
  - apply calculate_slippage_cold. cbn. lia.
  - intros [Hprior _].
    change (user_profile fresh_analyzer (Order.userId example_order)
              wednesday_noon)
      with (UserData.mk 0 0%R [] 0 wednesday_noon) in Hprior.
    cbn [UserData.total_orders] in Hprior. lia.
  - intros _. cbn [example_order Order.price]. apply Rpos_neq_0. lra.
  - pose proof Hrun as Hstate. apply analyze_order_state in Hstate
      as [(e & [=] & _)|[(order & e & _ & [=] & _)|
          (order & final & after & Hparse & _ & -> & _)]].
    rewrite example_fields_parse in Hparse. injection Hparse as <-.
    eexists analysis, _, after. split; [exact Hrun|].
    unfold get_user_analytics.
    cbn [RiskAnalyzer.user_analytics RiskAnalyzer.set_user_analytics].
    apply lookup_insert_eq.
Qed.

Lemma analyze_order_score_range_witness :
  exists analysis self',
    analyze_order saturday_evening saturday_evening example_fields
      (busy_analyzer saturday_evening) = (Ok analysis, self') /\
    (0 <= RiskAnalysis.riskScore analysis <= 125)%R.
Proof.
  destruct (busy_run saturday_evening) as (analysis & self' & Hrun & _ & _).
  exists analysis, self'. split; [exact Hrun|].
  exact (analyze_order_score_range saturday_evening saturday_evening
           example_fields (busy_analyzer saturday_evening) analysis self' Hrun).
Defined.

Lemma analyze_order_updates_profile_witness :
  exists analysis self',
    analyze_order saturday_evening saturday_evening example_fields
      (busy_analyzer saturday_evening) = (Ok analysis, self') /\
    exists order after,
      _parse_order_data example_fields = Ok order /\
      get_user_analytics self' (Order.userId order) = Some after /\
      profile_updated
        (user_profile (busy_analyzer saturday_evening) (Order.userId order)
           saturday_evening)
        after saturday_evening order analysis /\
      forall other,
        other <> Order.userId order ->
        get_user_analytics self' other
        = get_user_analytics (busy_analyzer saturday_evening) other.
Proof.
  destruct (busy_run saturday_evening) as (analysis & self' & Hrun & _ & _).
  exists analysis, self'. split; [exact Hrun|].
  exact (analyze_order_updates_profile saturday_evening saturday_evening
           example_fields (busy_analyzer saturday_evening) analysis self' Hrun).
Defined.

(** A first order at a price of zero, after a price swing: the pass
    stores the zeroed profile and fails in the market stage. *)
Lemma zero_price_run start_time :
  analyze_order start_time saturday_evening zero_price_fields
    (swing_analyzer saturday_evening)
  = (Raise ZeroDivisionError,
     with_profile (swing_analyzer saturday_evening) "user-1" saturday_evening).
Proof.
  apply (analyze_order_market_raises start_time saturday_evening
           zero_price_fields (swing_analyzer saturday_evening) zero_price_order
           swing_volatility_value 50
           (5 + Rmin (order_notional zero_price_order / 100000) 0.5
            + Rmin (swing_volatility_value * 1000) 20
            + (if bool_decide (2 <= hour saturday_evening <= 6)%Z
               then 5 else 0))%R).
  - reflexivity.
  - exact swing_volatility.
  - exact swing_percentile.
  - apply calculate_slippage_formula. exact swing_volatility.
  - intros [Hprior _].
    change (user_profile (swing_analyzer saturday_evening)
              (Order.userId zero_price_order) saturday_evening)
      with (UserData.mk 0 0%R [] 0 saturday_evening) in Hprior.
    cbn [UserData.total_orders] in Hprior. lia.
  - change (RiskAnalyzer.volatility_calculator (swing_analyzer saturday_evening))
      with (swing_engine saturday_evening).
    unfold large_movement. rewrite swing_max_recent_change.
    cbn [exceeds_half_percent py_max fold_left repeat app zero_price_order
         Order.price].
    eapply Rlt_le_trans; [|apply Rmax_r].
    rewrite Rabs_left by lra. lra.
  - reflexivity.
Qed.

Lemma failed_analysis_counts_nothing_witness :
  analyze_order saturday_evening saturday_evening zero_price_fields
    (swing_analyzer saturday_evening)
  = (Raise ZeroDivisionError,
     with_profile (swing_analyzer saturday_evening) "user-1" saturday_evening)
  /\
  (get_user_analytics
     (with_profile (swing_analyzer saturday_evening) "user-1" saturday_evening)
     "user-1"
   = get_user_analytics (swing_analyzer saturday_evening) "user-1" \/
   (get_user_analytics (swing_analyzer saturday_evening) "user-1" = None /\
    get_user_analytics
      (with_profile (swing_analyzer saturday_evening) "user-1" saturday_evening)
      "user-1"
    = Some (UserData.mk 0 0%R [] 0 saturday_evening))).
Proof.
  split; [exact (zero_price_run saturday_evening)|].
  apply (failed_analysis_counts_nothing saturday_evening saturday_evening
           zero_price_fields (swing_analyzer saturday_evening)
           ZeroDivisionError
           (with_profile (swing_analyzer saturday_evening) "user-1"
              saturday_evening)).
  exact (zero_price_run saturday_evening).
Defined.

Lemma tracker_profiles_bounded_witness :
  exists after,
    get_user_analytics
      (snd (analyze_order wednesday_noon wednesday_noon example_fields
              fresh_analyzer)) "user-1" = Some after /\
    profile_bounds after.
Proof.
  destruct (fresh_run wednesday_noon) as (analysis & self' & after & Hrun & Hget).
  exists after.
  assert (get_user_analytics
            (snd (analyze_order wednesday_noon wednesday_noon example_fields
                    fresh_analyzer)) "user-1" = Some after) as Hafter
    by (rewrite Hrun; exact Hget).
  split; [exact Hafter|].
  apply (tracker_profiles_bounded
           (snd (analyze_order wednesday_noon wednesday_noon example_fields
                   fresh_analyzer)) "user-1" after).
  - apply tracker_analyze, tracker_init.
  - exact Hafter.
Defined.

Lemma tracker_user_points_witness :
  In (RiskAnalysis.riskScore
        (add_risk 5 FirstTimeUser
           (RiskAnalysis.mk "order-1" "user-1" "BTC-USD" 0 ACCEPT 0 0 [] 0
              wednesday_noon))
      - RiskAnalysis.riskScore
          (RiskAnalysis.mk "order-1" "user-1" "BTC-USD" 0 ACCEPT 0 0 [] 0
             wednesday_noon))%R
    [0; 5; 15; 25; 40]%R.
Proof.
  apply (tracker_user_points wednesday_noon example_order
           (RiskAnalysis.mk "order-1" "user-1" "BTC-USD" 0 ACCEPT 0 0 [] 0
              wednesday_noon)
           fresh_analyzer _
           (with_profile fresh_analyzer "user-1" wednesday_noon)).
  - apply tracker_init.
  - rewrite _analyze_user_behavior_run. reflexivity.
Defined.

Lemma analyze_order_records_witness :
  exists analysis self',
    analyze_order (saturday_evening - 3000)%Z saturday_evening example_fields
      (busy_analyzer saturday_evening) = (Ok analysis, self') /\
    exists order v bps,
      _parse_order_data example_fields = Ok order /\
      get_current_volatility (swing_engine saturday_evening) saturday_evening
        = Ok v /\
      calculate_slippage (swing_engine saturday_evening) saturday_evening
        (order_notional order) (Order.symbol order) = Ok bps /\
      RiskAnalysis.orderId analysis = Order.orderId order /\
      RiskAnalysis.userId analysis = Order.userId order /\
      RiskAnalysis.symbol analysis = Order.symbol order /\
      RiskAnalysis.volatility analysis = v /\
      RiskAnalysis.slippage analysis = (bps / 10000)%R.
Proof.
  destruct (busy_run (saturday_evening - 3000)%Z)
    as (analysis & self' & Hrun & _ & _).
  exists analysis, self'. split; [exact Hrun|].
  exact (analyze_order_records (saturday_evening - 3000)%Z saturday_evening
           example_fields (busy_analyzer saturday_evening) analysis self' Hrun).
Defined.


Lemma cold_start_never_rejects_witness :
  exists analysis self',
    analyze_order wednesday_noon wednesday_noon example_fields fresh_analyzer
      = (Ok analysis, self') /\
    (RiskAnalysis.riskScore analysis <= 65)%R /\
    RiskAnalysis.verdict analysis <> REJECT.
Proof.
  destruct (fresh_run wednesday_noon) as (analysis & self' & _ & Hrun & _).
  exists analysis, self'. split; [exact Hrun|].
  apply (cold_start_never_rejects wednesday_noon wednesday_noon example_fields
           fresh_analyzer analysis self').
  - cbn. lia.
  - cbn. lra.
  - cbn. lra.
  - exact Hrun.
Defined.

Lemma extreme_volatility_never_accepts_witness :
  exists analysis self',
    analyze_order saturday_evening saturday_evening example_fields
      (busy_analyzer saturday_evening) = (Ok analysis, self') /\
    (30 <= RiskAnalysis.riskScore analysis)%R /\
    RiskAnalysis.verdict analysis <> ACCEPT /\
    (50 <= RiskAnalysis.riskScore analysis)%R.
Proof.
  destruct (busy_run saturday_evening) as (analysis & self' & Hrun & _ & _).
  exists analysis, self'. split; [exact Hrun|].
  pose proof swing_volatility_value_large as Hlarge.
  destruct (extreme_volatility_never_accepts saturday_evening saturday_evening
              example_fields (busy_analyzer saturday_evening) analysis self'
              example_order swing_volatility_value)
    as (Hwarn & Hverdict & Hslippage).
  - exact Hrun.
  - exact example_fields_parse.
  - exact swing_volatility.
  - cbn. lra.
  - split; [exact Hwarn|]. split; [exact Hverdict|].
    apply Hslippage.
    + cbn. lra.
    + unfold order_notional. cbn. lra.
Defined.

Lemma parse_direct_fields_witness :
  example_fields !! "orderId" = Some (Order.orderId example_order) /\
  example_fields !! "userId" = Some (Order.userId example_order) /\
  example_fields !! "symbol" = Some (Order.symbol example_order) /\
  example_fields !! "side" = Some (Order.side example_order) /\
  example_fields !! "orderType" = Some (Order.orderType example_order) /\
  (exists quantity,
     example_fields !! "quantity" = Some quantity /\
     float quantity = Ok (Order.quantity example_order)) /\
  (exists price,
     example_fields !! "price" = Some price /\
     float price = Ok (Order.price example_order)) /\
  (exists timestamp,
     example_fields !! "timestamp" = Some timestamp /\
     fromisoformat timestamp = Ok (Order.timestamp example_order)).
Proof.
  apply (parse_direct_fields example_fields example_order).
  - reflexivity.
  - exact example_fields_parse.
Defined.

Lemma first_order_flagged_witness :
  exists self',
    _analyze_user_behavior wednesday_noon example_order
      (RiskAnalysis.mk "order-1" "user-1" "BTC-USD" 0 ACCEPT 0 0 [] 0
         wednesday_noon) fresh_analyzer
    = (Ok (add_risk 5 FirstTimeUser
             (RiskAnalysis.mk "order-1" "user-1" "BTC-USD" 0 ACCEPT 0 0 [] 0
                wednesday_noon)), self') /\
    get_user_analytics self' (Order.userId example_order)
      = Some (UserData.mk 0 0%R [] 0 wednesday_noon) /\
    forall other,
      other <> Order.userId example_order ->
      get_user_analytics self' other = get_user_analytics fresh_analyzer other.
Proof.
  apply (first_order_flagged wednesday_noon example_order
           (RiskAnalysis.mk "order-1" "user-1" "BTC-USD" 0 ACCEPT 0 0 [] 0
              wednesday_noon) fresh_analyzer).
  reflexivity.
Defined.

(** ** More examples: the consumer *)

Lemma processed_message_is_stored_and_acknowledged_witness :
  exists analysis ra' rc',
    analyze_order (saturday_evening - 3000)%Z saturday_evening example_fields
      (busy_analyzer saturday_evening) = (Ok analysis, ra') /\
    _process_messages (saturday_evening - 3000)%Z saturday_evening
      [(stream_name, [(example_msg_id, example_fields)])]
      (RedisConsumer.mk (busy_analyzer saturday_evening)
         (example_server no_failure) true)
    = (Ok tt, RedisConsumer.mk ra' rc' true) /\
    get_analysis_result (Some rc') false (RiskAnalysis.orderId analysis)
      = Some (Some (analysis_data example_msg_id analysis)) /\
    Redis.expires rc' !! analysis_key analysis = Some 86400%Z /\
    Redis.pending rc' = Redis.pending (example_server no_failure)
                        ∖ {[example_msg_id]}.
Proof.
  destruct (busy_run (saturday_evening - 3000)%Z)
    as (analysis & ra' & Hrun & _ & _).
  destruct (processed_message_is_stored_and_acknowledged
              (saturday_evening - 3000)%Z saturday_evening example_msg_id
              example_fields (busy_analyzer saturday_evening)
              (example_server no_failure) true analysis ra' Hrun)
    as (rc' & Hprocessed).
  - intros command. reflexivity.
  - exists analysis, ra', rc'. split; [exact Hrun|exact Hprocessed].
Defined.

Lemma failed_message_stays_pending_witness :
  _process_messages wednesday_noon wednesday_noon
    [(stream_name, [(example_msg_id, wrapped_fields)])] example_consumer
  = (Ok tt,
     RedisConsumer.mk (busy_analyzer saturday_evening)
       (RedisConsumer.redis_client example_consumer)
       (RedisConsumer.running example_consumer)).
Proof.
  apply (failed_message_stays_pending wednesday_noon wednesday_noon
           example_msg_id wrapped_fields example_consumer ValidationError
           (busy_analyzer saturday_evening)).
  apply analyze_order_parse_raises. reflexivity.
Defined.

Lemma unacknowledged_result_is_stored_witness :
  exists analysis ra' rc',
    _process_messages (saturday_evening - 3000)%Z saturday_evening
      [(stream_name, [(example_msg_id, example_fields)])]
      (RedisConsumer.mk (busy_analyzer saturday_evening)
         (example_server xack_down) true)
    = (Ok tt, RedisConsumer.mk ra' rc' true) /\
    Redis.hashes rc' !! analysis_key analysis
      = Some (analysis_data example_msg_id analysis) /\
    Redis.pending rc' = Redis.pending (example_server xack_down).
Proof.
  destruct (busy_run (saturday_evening - 3000)%Z)
    as (analysis & ra' & Hrun & _ & _).
  destruct (unacknowledged_result_is_stored
              (saturday_evening - 3000)%Z saturday_evening example_msg_id
              example_fields (busy_analyzer saturday_evening)
              (example_server xack_down) true analysis ra' Hrun eq_refl eq_refl)
    as (rc' & Hprocessed).
  exists analysis, ra', rc'. exact Hprocessed.
Defined.

Lemma expire_failure_keeps_result_forever_witness :
  exists analysis ra' rc',
    _process_messages (saturday_evening - 3000)%Z saturday_evening
      [(stream_name, [(example_msg_id, example_fields)])]
      (RedisConsumer.mk (busy_analyzer saturday_evening)
         (example_server expire_down) true)
    = (Ok tt, RedisConsumer.mk ra' rc' true) /\
    Redis.hashes rc' !! analysis_key analysis
      = Some (analysis_data example_msg_id analysis) /\
    Redis.expires rc' = Redis.expires (example_server expire_down) /\
    Redis.pending rc' = Redis.pending (example_server expire_down)
                        ∖ {[example_msg_id]}.
Proof.
  destruct (busy_run (saturday_evening - 3000)%Z)
    as (analysis & ra' & Hrun & _ & _).
  destruct (expire_failure_keeps_result_forever
              (saturday_evening - 3000)%Z saturday_evening example_msg_id
              example_fields (busy_analyzer saturday_evening)
              (example_server expire_down) true analysis ra' Hrun
              eq_refl eq_refl eq_refl)
    as (rc' & Hprocessed).
  exists analysis, ra', rc'. exact Hprocessed.
Defined.
